(** * cluster_pack.packaging: a shallow embedding and its properties

    The module [cluster_pack/packaging.py] packages a Python environment
    into an archive and names the archive.  This development embeds the
    functions of that module as Rocq functions and proves the properties
    its specification states about them.

    Conventions.
    - A Python [str] is a [string]; every character is a code point below
      256.  A Python [bytes] is a [string] too, one character for a byte.
    - A function that can raise returns a [result]; the exception is the
      [Err] payload.
    - What the module reads from its process (environment variables, the
      working directory, the interpreter path, sub-process output, the
      import system, the archive it opens) is a field of the record [Ctx].
    - The directory [zip_path] walks is a [tree], which records for every
      entry what [os.walk] and [zipfile] do with it. *)

From Stdlib Require Import ZArith Ascii String List Lia Bool.
From stdpp Require Import base strings list gmap.

Local Open Scope Z_scope.

(** ** Exceptions and results *)

Inductive exn : Type :=
  | ValueError (msg : string)
  | RuntimeError (msg : string)
  | IndexError
  | TypeError
  | FileNotFoundError
  | JSONDecodeError (doc : string)
  | CalledProcessError (returncode : Z) (stderr : string)
  | UnicodeDecodeError
  | PermissionError.

Inductive result (A : Type) : Type :=
  | Ok (a : A)
  | Err (e : exn).
Arguments Ok {A} a.
Arguments Err {A} e.

#[global] Instance result_ret : MRet result := fun _ a => Ok a.

#[global] Instance result_bind : MBind result := fun _ _ k r =>
  match r with
  | Ok a => k a
  | Err e => Err e
  end.

(** ** Python string operations *)

Module PyStr.

(** [s[n:]] for [0 <= n]. *)
Fixpoint drop (n : nat) (s : string) : string :=
  match n, s with
  | O, _ => s
  | S n', String _ s' => drop n' s'
  | S _, EmptyString => EmptyString
  end.

(** [s[:n]] for [0 <= n]. *)
Fixpoint take (n : nat) (s : string) : string :=
  match n, s with
  | O, _ => EmptyString
  | S n', String a s' => String a (take n' s')
  | S _, EmptyString => EmptyString
  end.

Definition slice_from (i : Z) (s : string) : string := drop (Z.to_nat i) s.
Definition slice_to (i : Z) (s : string) : string := take (Z.to_nat i) s.

(** [s[i:i+1]] for [0 <= i]: the empty string past the end. *)
Definition char_at (i : Z) (s : string) : string :=
  take 1 (drop (Z.to_nat i) s).

(** [s.rfind(c)] for a one-character [c]: the index of the last
    occurrence, [-1] when there is none. *)
Fixpoint rfind (c : ascii) (s : string) : Z :=
  match s with
  | EmptyString => -1
  | String a s' =>
      let r := rfind c s' in
      if 0 <=? r then r + 1
      else if Ascii.eqb a c then 0 else -1
  end.

Definition startswith (p s : string) : bool := String.prefix p s.

(** [s.endswith(suf)]: [suf] is [s] or ends [s] without its first
    character. *)
Fixpoint endswith (suf s : string) : bool :=
  String.eqb s suf
  || match s with
     | EmptyString => false
     | String _ s' => endswith suf s'
     end.

(** [s.split(c)] for a one-character separator: never empty. *)
Fixpoint split (c : ascii) (s : string) : list string :=
  match s with
  | EmptyString => [EmptyString]
  | String a s' =>
      if Ascii.eqb a c then EmptyString :: split c s'
      else match split c s' with
           | w :: ws => String a w :: ws
           | [] => [String a EmptyString]
           end
  end.

(** [sep.join(l)]. *)
Definition join (sep : string) (l : list string) : string :=
  String.concat sep l.

(** [c in s]. *)
Fixpoint contains (c : ascii) (s : string) : bool :=
  match s with
  | EmptyString => false
  | String a s' => Ascii.eqb a c || contains c s'
  end.

(** [s.rstrip(c)] for a one-character [c]. *)
Fixpoint rstrip (c : ascii) (s : string) : string :=
  match s with
  | EmptyString => EmptyString
  | String a s' =>
      match rstrip c s' with
      | EmptyString => if Ascii.eqb a c then EmptyString else String a EmptyString
      | r => String a r
      end
  end.

(** [c * n]. *)
Fixpoint replicate (n : nat) (c : ascii) : string :=
  match n with
  | O => EmptyString
  | S n' => String c (replicate n' c)
  end.

(** [bytes.strip()]: ASCII white space removed at both ends. *)
Fixpoint lstrip_ws (s : string) : string :=
  match s with
  | EmptyString => EmptyString
  | String a s' => if Ascii.is_space a then lstrip_ws s' else s
  end.

Fixpoint rstrip_ws (s : string) : string :=
  match s with
  | EmptyString => EmptyString
  | String a s' =>
      match rstrip_ws s' with
      | EmptyString => if Ascii.is_space a then EmptyString else String a EmptyString
      | r => String a r
      end
  end.

Definition strip (s : string) : string := rstrip_ws (lstrip_ws s).

(** Whether [s.decode("ascii")] succeeds: every byte is below 128. *)
Fixpoint isascii (s : string) : bool :=
  match s with
  | EmptyString => true
  | String a s' => (nat_of_ascii a <? 128)%nat && isascii s'
  end.

End PyStr.

(** ** [os.path] on POSIX *)

Module posixpath.
Import PyStr.

Definition sep : ascii := "/"%char.
Definition extsep : ascii := "."%char.

Definition isabs (s : string) : bool := startswith "/" s.

(** One step of [join]'s loop: [path] joined with the next part [b]. *)
Definition join2 (path b : string) : string :=
  if startswith "/" b then b
  else if String.eqb path "" || endswith "/" path then path +:+ b
  else path +:+ "/" +:+ b.

(** [os.path.join(a, *p)]. *)
Definition join (a : string) (p : list string) : string :=
  fold_left join2 p a.

(** [os.path.basename(p)]: [p[p.rfind('/') + 1:]]. *)
Definition basename (p : string) : string :=
  let i := rfind sep p + 1 in
  slice_from i p.

(** [os.path.dirname(p)]. *)
Definition dirname (p : string) : string :=
  let i := rfind sep p + 1 in
  let head := slice_to i p in
  if negb (String.eqb head "")
     && negb (String.eqb head (replicate (String.length head) sep))
  then rstrip sep head
  else head.

(** The [while] loop of [genericpath._splitext]: it looks for a character
    other than a dot between the last separator and the last dot. *)
Fixpoint splitext_loop (n : nat) (p : string) (filenameIndex dotIndex : Z)
  : string * string :=
  match n with
  | O => (p, EmptyString)
  | S n' =>
      if negb (String.eqb (char_at filenameIndex p) ".")
      then (slice_to dotIndex p, slice_from dotIndex p)
      else splitext_loop n' p (filenameIndex + 1) dotIndex
  end.

(** [os.path.splitext(p)]. *)
Definition splitext (p : string) : string * string :=
  let sepIndex := rfind sep p in
  let dotIndex := rfind extsep p in
  if sepIndex <? dotIndex then
    let filenameIndex := sepIndex + 1 in
    splitext_loop (Z.to_nat (dotIndex - filenameIndex)) p filenameIndex dotIndex
  else (p, EmptyString).

(** The body of [normpath]'s loop over the components; [new_comps] is
    the list the loop appends to and pops from. *)
Definition normpath_step (initial_slashes : nat) (new_comps : list string)
    (comp : string) : list string :=
  if String.eqb comp "" || String.eqb comp "." then new_comps
  else if negb (String.eqb comp "..")
          || ((initial_slashes =? 0)%nat && bool_decide (new_comps = []))
          || (negb (bool_decide (new_comps = []))
              && String.eqb (List.last new_comps "") "..")
  then new_comps ++ [comp]
  else removelast new_comps.

(** [os.path.normpath(path)]. *)
Definition normpath (path : string) : string :=
  if String.eqb path "" then "."
  else
    let initial_slashes :=
      if startswith "/" path then
        if startswith "//" path && negb (startswith "///" path)
        then 2%nat else 1%nat
      else 0%nat in
    let comps := split sep path in
    let new_comps := fold_left (normpath_step initial_slashes) comps [] in
    let path := PyStr.join "/" new_comps in
    let path := if (initial_slashes =? 0)%nat then path
                else replicate initial_slashes sep +:+ path in
    if String.eqb path "" then "." else path.

(** [os.path.abspath(path)], with [cwd] the value of [os.getcwd()]. *)
Definition abspath (cwd path : string) : string :=
  let path := if isabs path then path else join2 cwd path in
  normpath path.

(** [os.path.commonprefix] of two component lists: their longest common
    prefix. *)
Fixpoint commonprefix (l1 l2 : list string) : list string :=
  match l1, l2 with
  | x :: l1', y :: l2' =>
      if String.eqb x y then x :: commonprefix l1' l2' else []
  | _, _ => []
  end.

Definition nonempty (x : string) : bool := negb (String.eqb x "").

(** [os.path.relpath(path, start)]. *)
Definition relpath (cwd path start : string) : result string :=
  if String.eqb path "" then Err (ValueError "no path specified")
  else
    let start_list := List.filter nonempty (split sep (abspath cwd start)) in
    let path_list := List.filter nonempty (split sep (abspath cwd path)) in
    let i := length (commonprefix start_list path_list) in
    let rel_list :=
      List.repeat ".." (length start_list - i) ++ List.skipn i path_list in
    match rel_list with
    | [] => Ok "."
    | a :: p => Ok (join a p)
    end.

End posixpath.

(** ** The process a call runs in *)

(** What [imp.find_module(name)] answers: [ImportError], or the triple
    whose second component is the module's location; the location is
    [None] for a built-in or frozen module. *)
Inductive find_result : Type :=
  | ImportError
  | Found (path : option string).

Record Ctx : Type := {
  (** [os.environ] *)
  environ : gmap string string;
  (** [_pex.__file__] when [import _pex] succeeds, [None] when it raises
      [ModuleNotFoundError] *)
  pex_module_file : option string;
  (** [os.getcwd()] *)
  getcwd : string;
  (** [sys.executable] *)
  sys_executable : string;
  (** [getpass.getuser()] *)
  getuser : string;
  (** the output of [hdfs getconf -confKey fs.defaultFS], or what
      [subprocess.check_output] raises *)
  hdfs_getconf : result string;
  (** [open(path).read()]: [None] when the file does not exist *)
  read_file : string -> option string;
  (** [imp.find_module] *)
  find_module : string -> find_result;
  (** the decoded output of [<executable> -m pip list -l <mode> --format
      json -v], or what [subprocess.check_output] or [decode] raises *)
  pip_list : string -> string -> result string;
  (** the name of the directory [tempfile.TemporaryDirectory()] makes *)
  mkdtemp : string;
  (** [shutil.copytree(src, dst)] *)
  copytree : string -> string -> result unit;
  (** [subprocess.run(cmd, ...)]: the return code and the bytes of the
      standard error, or what starting the process raises *)
  run : list string -> result (Z * string);
  (** [zipfile.ZipFile(path, 'w', ...)]: what opening the archive raises,
      if anything *)
  zip_open : string -> result unit;
  (** what closing the archive at the end of the [with] block raises, if
      anything *)
  zip_close : string -> result unit
}.

Definition CONDA_DEFAULT_ENV : string := "CONDA_DEFAULT_ENV".
Definition EDITABLE_PACKAGES_INDEX : string := "editable_packages_index".
Definition CRITEO_PYPI_URL : string :=
  "http://build-nexus.prod.crto.in/repository/moab.pypi/simple".

(** ** Packers *)

(** [get_env_name(env_var_name)] *)
Definition get_env_name (c : Ctx) (env_var_name : string) : string :=
  match environ c !! env_var_name with
  | None => "default"
  | Some virtual_env_path =>
      if String.eqb virtual_env_path "" then "default"
      else posixpath.basename virtual_env_path
  end.

(** The parts of [pathlib.Path(s)] after its root: the components between
    slashes, without the empty ones and the single dots. *)
Definition path_parts (s : string) : list string :=
  List.filter (fun x => negb (String.eqb x "" || String.eqb x "."))
    (PyStr.split posixpath.sep s).

(** [pathlib.Path(s).parents[1].name]: the path has one parent per part;
    the second parent is the path without its last two parts, and its name
    is its last part ([''] when none is left). *)
Definition second_parent_name (s : string) : result string :=
  let parts := path_parts s in
  if (length parts <? 2)%nat then Err IndexError
  else Ok (List.last (List.firstn (length parts - 2) parts) "").

(** The two packers, [CONDA_PACKER] and [PEX_PACKER]. *)
Inductive Packer : Type :=
  | CONDA_PACKER
  | PEX_PACKER.

#[global] Instance Packer_eq_dec : EqDecision Packer.
Proof. solve_decision. Defined.

(** [packer.env_name()] *)
Definition env_name (c : Ctx) (packer : Packer) : result string :=
  match packer with
  | CONDA_PACKER => second_parent_name (sys_executable c)
  | PEX_PACKER => Ok (get_env_name c "VIRTUAL_ENV")
  end.

(** [packer.extension()] *)
Definition extension (packer : Packer) : string :=
  match packer with
  | CONDA_PACKER => "tar.gz"
  | PEX_PACKER => "pex"
  end.

(** ** Where the process runs from *)

(** [_is_conda_env()] *)
Definition _is_conda_env (c : Ctx) : bool :=
  bool_decide (is_Some (environ c !! CONDA_DEFAULT_ENV)).

(** [_is_criteo()] *)
Definition _is_criteo (c : Ctx) : bool :=
  bool_decide (is_Some (environ c !! "CRITEO_ENV")).

(** [_running_from_pex()] *)
Definition _running_from_pex (c : Ctx) : bool :=
  if bool_decide (is_Some (environ c !! "PEX")) then true
  else match pex_module_file c with
       | Some _ => true
       | None => false
       end.

(** [get_current_pex_filepath()] *)
Definition get_current_pex_filepath (c : Ctx) : result string :=
  match environ c !! "PEX" with
  | Some v => Ok v
  | None =>
      match pex_module_file c with
      | Some file =>
          Ok (posixpath.abspath (getcwd c)
                (posixpath.dirname (posixpath.dirname (posixpath.dirname file))))
      | None =>
          Err (RuntimeError
                 "Trying to get current pex file path while not running from PEX")
      end
  end.

(** [get_default_fs()] *)
Definition get_default_fs (c : Ctx) : result string :=
  out ← hdfs_getconf c; mret (PyStr.strip out).

(** ** Archive names *)

(** The characters of a string, what iterating over a [str] yields. *)
Fixpoint chars (s : string) : list string :=
  match s with
  | EmptyString => []
  | String a s' => String a EmptyString :: chars s'
  end.

(** [detect_archive_names(packer, package_path)]; [package_path] is [None]
    when the caller gives none, and [not package_path] also holds for the
    empty string. *)
Definition detect_archive_names (c : Ctx) (packer : Packer)
    (package_path : option string) : result (string * string * string) :=
  '(pex_file, env_name) ←
    (if _running_from_pex c then
       pex_file ← get_current_pex_filepath c;
       mret (pex_file, fst (posixpath.splitext (posixpath.basename pex_file)))
     else
       env_name ← env_name c packer;
       mret (EmptyString, env_name));
  let package_path := default EmptyString package_path in
  package_path ←
    (if String.eqb package_path "" then
       fs ← get_default_fs c;
       mret (fs +:+ "/user/" +:+ getuser c +:+ "/envs/" +:+ env_name
               +:+ "." +:+ extension packer)
     else if negb (String.eqb
                     (PyStr.join "" (chars (snd (posixpath.splitext package_path))))
                     ("." +:+ extension packer))
     then Err (ValueError (package_path +:+ " has the wrong extension"
                             +:+ ", ." +:+ extension packer +:+ " is expected"))
     else mret package_path);
  mret (package_path, env_name, pex_file).

(** [detect_packer_from_spec(spec_file)] *)
Definition detect_packer_from_spec (spec_file : string) : result Packer :=
  if String.eqb (posixpath.basename spec_file) "requirements.txt" then Ok PEX_PACKER
  else if PyStr.endswith ".yaml" spec_file || PyStr.endswith ".yml" spec_file
  then Ok CONDA_PACKER
  else Err (ValueError ("Archive format " +:+ spec_file +:+ " unsupported. "
                          +:+ "Must be requirements.txt or conda .yaml")).

(** [detect_packer_from_env()] *)
Definition detect_packer_from_env (c : Ctx) : Packer :=
  if _is_conda_env c then CONDA_PACKER else PEX_PACKER.

(** [detect_packer_from_file(zip_file)] *)
Definition detect_packer_from_file (zip_file : string) : result Packer :=
  if PyStr.endswith ".pex" zip_file then Ok PEX_PACKER
  else if PyStr.endswith ".zip" zip_file || PyStr.endswith ".tar.gz" zip_file
  then Ok CONDA_PACKER
  else Err (ValueError ("Archive format " +:+ zip_file +:+ " unsupported. "
                          +:+ "Must be .pex or conda .zip/.tar.gz")).

(** A process for the examples: a virtual environment, a user and a
    cluster file system, not running from a pex. *)
Definition ctx0 : Ctx := {|
  environ := {[ "VIRTUAL_ENV" := "/path/to/my_venv"; "HOME" := "/home/j.doe" ]};
  pex_module_file := None;
  getcwd := "/home/j.doe";
  sys_executable := "/opt/conda/envs/myenv/bin/python";
  getuser := "j.doe";
  hdfs_getconf := Ok "hdfs://root
";
  read_file := fun _ => None;
  find_module := fun _ => ImportError;
  pip_list := fun _ _ => Ok "[]
";
  mkdtemp := "/tmp/tmpdir0";
  copytree := fun _ _ => Ok ();
  run := fun _ => Ok (0, "");
  zip_open := fun _ => Ok ();
  zip_close := fun _ => Ok ()
|}.

(** ** Building a pex *)

(** [req.split("=")[0]] *)
Definition pkg_name (req : string) : string :=
  hd EmptyString (PyStr.split "=" req).

(** The loop of [pack_in_pex] over the requirements: [cmd] is the list
    the loop appends to. *)
Definition add_requirements (ignored_packages : list string)
    (cmd : list string) (requirements : list string) : list string :=
  fold_left
    (fun cmd req =>
       if bool_decide (pkg_name req ∈ ignored_packages) then cmd
       else cmd ++ [req])
    requirements cmd.

(** The command [pack_in_pex] assembles; [editable_requirements] is the
    dictionary as its list of items. *)
Definition pex_cmd (c : Ctx) (tempdir : string) (requirements : list string)
    (output : string) (ignored_packages : list string)
    (pex_inherit_path : string)
    (editable_requirements : list (string * string)) : list string :=
  let cmd := ["pex"; "--inherit-path=" +:+ pex_inherit_path] in
  let cmd :=
    if negb (bool_decide (editable_requirements = []))
    then cmd ++ ["--sources-directory=" +:+ tempdir] else cmd in
  let cmd := add_requirements ignored_packages cmd requirements in
  let cmd :=
    if _is_criteo c then cmd ++ ["--index-url=" +:+ CRITEO_PYPI_URL] else cmd in
  cmd ++ ["-o"; output].

(** [pack_in_pex(requirements, output, ignored_packages, pex_inherit_path,
    editable_requirements)].  After a build that exits with another code
    than 0 the handler logs [err.stderr.decode("ascii")]: standard error
    that is not ASCII raises [UnicodeDecodeError] there, otherwise the
    [CalledProcessError] is raised again. *)
Definition pack_in_pex (c : Ctx) (requirements : list string)
    (output : string) (ignored_packages : list string)
    (pex_inherit_path : string)
    (editable_requirements : list (string * string)) : result string :=
  let tempdir := mkdtemp c in
  _ ← mapM (fun kv : string * string =>
              let current_package := kv.2 in
              copytree c current_package
                (posixpath.join tempdir [posixpath.basename current_package]))
           editable_requirements;
  '(returncode, stderr) ←
    run c (pex_cmd c tempdir requirements output ignored_packages
             pex_inherit_path editable_requirements);
  if returncode =? 0 then mret output
  else if PyStr.isascii stderr then Err (CalledProcessError returncode stderr)
  else Err UnicodeDecodeError.

(** ** JSON *)

(** A JSON value, what [json.loads] returns; an object keeps its members
    in the order of the text. *)
#[warnings="-register-all"]
Inductive json : Type :=
  | JNull
  | JBool (b : bool)
  | JNum (n : Z)
  | JStr (s : string)
  | JArr (l : list json)
  | JObj (members : list (string * json)).

(** The dictionary of an object: a later member replaces an earlier one
    of the same name. *)
Definition obj_map (members : list (string * json)) : gmap string json :=
  fold_left (fun m kv => <[kv.1 := kv.2]> m) members ∅.

Definition str_of (j : json) : option string :=
  match j with
  | JStr s => Some s
  | _ => None
  end.

(** ** The installed packages *)

(** The argument of [pip list] that selects the editable packages or
    leaves them out. *)
Definition editable_mode (editable : bool) : string :=
  if editable then "-e" else "--exclude-editable".

Section Inventory.

(** [json.loads]: [None] when it raises [JSONDecodeError]. *)
Variable json_loads : string -> option json.

(** [_get_packages(editable, executable)] *)
Definition _get_packages (c : Ctx) (editable : bool) (executable : string)
  : result json :=
  out ← pip_list c executable (editable_mode editable);
  let results := hd EmptyString (PyStr.split "010" out) in
  match json_loads results with
  | Some v => Ok v
  | None => Err (JSONDecodeError results)
  end.

End Inventory.

(** ** Editable requirements *)

Definition is_linebreak (a : ascii) : bool :=
  match a with
  | "010" | "011" | "012" | "013" | "028" | "029" | "030" | "133" => true
  | _ => false
  end%char.

(** [s.splitlines()]: a carriage return followed by a line feed is one
    line boundary; no empty last line. *)
Fixpoint splitlines (s : string) : list string :=
  match s with
  | EmptyString => []
  | String a s' =>
      if is_linebreak a then
        match a, s' with
        | "013"%char, String "010"%char s'' => EmptyString :: splitlines s''
        | _, _ => EmptyString :: splitlines s'
        end
      else
        match splitlines s' with
        | w :: ws => String a w :: ws
        | [] => [String a EmptyString]
        end
  end.

(** The loop of [get_editable_requirements] over the package names of the
    index: an [ImportError] is logged and the name skipped; the base name
    of a location that is [None] raises [TypeError]. *)
Fixpoint add_editable (c : Ctx) (package_names : list string)
    (editable_requirements : gmap string string) : result (gmap string string) :=
  match package_names with
  | [] => Ok editable_requirements
  | package_name :: rest =>
      match find_module c package_name with
      | Found (Some path) =>
          add_editable c rest
            (<[posixpath.basename path := path]> editable_requirements)
      | Found None => Err TypeError
      | ImportError => add_editable c rest editable_requirements
      end
  end.

Section Editable.

(** [_get_editable_requirements(executable)]: it asks pip, setuptools and
    the import system for the directories of the editable packages; it is
    used outside a pex only. *)
Variable _get_editable_requirements : string -> result (list string).

(** [get_editable_requirements(executable, editable_packages_dir)] *)
Definition get_editable_requirements (c : Ctx) (executable : string)
    (editable_packages_dir : string) : result (gmap string string) :=
  if _running_from_pex c then
    match read_file c (editable_packages_dir +:+ "/" +:+ EDITABLE_PACKAGES_INDEX) with
    | None => Ok ∅
    | Some content => add_editable c (splitlines content) ∅
    end
  else
    dirs ← _get_editable_requirements executable;
    mret (fold_left
            (fun m requirement_dir =>
               <[posixpath.basename requirement_dir := requirement_dir]> m)
            dirs ∅).

End Editable.

(** ** Zipping a directory *)

(** A directory as [os.walk] and [zipfile] see it.
    - [files]: the entries that are not directories, in the order
      [os.scandir] gives them, each with what [zipf.write] raises for it:
      [None] for a file it can store, [FileNotFoundError] for a dangling
      symbolic link, [PermissionError] for a file it may not read,
      [ValueError] for a file dated before 1980.
    - [dirs]: the entries that are directories, each with whether
      [os.walk] enters it and with what lies in it.  It enters a real
      directory it can list; it lists but does not enter a symbolic link
      to a directory ([followlinks] is [False]) nor a directory it cannot
      read. *)
#[warnings="-register-all"]
Inductive tree : Type :=
  | Dir (files : list (string * option exn))
        (dirs : list (string * (bool * tree))).

(** [os.walk(top)] over the directory [t] found at [top]: the triples
    [(root, dirs, files)], a directory before its sub-directories; the
    files come with what writing them raises. *)
Fixpoint walk (top : string) (t : tree)
  : list (string * list string * list (string * option exn)) :=
  match t with
  | Dir files dirs =>
      (top, map fst dirs, files)
      :: flat_map
           (fun dt : string * (bool * tree) =>
              if dt.2.1 then walk (posixpath.join2 top dt.1) dt.2.2 else [])
           dirs
  end.

(** The name [zip_path] gives in the archive to [file] of the directory
    [root]. *)
Definition arcname (cwd py_dir : string) (include_base_name : bool)
    (root file : string) : result string :=
  if negb (String.eqb root py_dir) then
    rel ← posixpath.relpath cwd root py_dir;
    mret (posixpath.join
            (if include_base_name then posixpath.basename py_dir else EmptyString)
            [rel; file])
  else
    mret (posixpath.join
            (if include_base_name then posixpath.basename root else EmptyString)
            [file]).

(** The calls [zipf.write(filename, arcname)] for the files of one
    directory: the arguments are computed, then the file is written or the
    write raises. *)
Definition zip_files (cwd py_dir : string) (include_base_name : bool)
    (root : string) (files : list (string * option exn))
  : result (list (string * string)) :=
  mapM (fun fe : string * option exn =>
          name ← arcname cwd py_dir include_base_name root fe.1;
          match fe.2 with
          | None => mret (posixpath.join root [fe.1], name)
          | Some e => Err e
          end)
       (List.filter (fun fe : string * option exn =>
                       negb (PyStr.endswith ".pyc" fe.1)) files).

(** [zip_path(py_dir, include_base_name, tmp_dir)] on the directory [t]
    found at [py_dir]: the path of the archive, and the members written to
    it, each the file written and the [arcname] handed to [zipf.write]
    for it.  The archive is closed when the [with] block is left, also
    when a write raised; an error of the closing is the one raised. *)
Definition zip_path (c : Ctx) (t : tree) (py_dir : string)
    (include_base_name : bool) (tmp_dir : string)
  : result (string * list (string * string)) :=
  let py_archive :=
    posixpath.join tmp_dir [posixpath.basename py_dir +:+ ".zip"] in
  _ ← zip_open c py_archive;
  match mapM (fun w : string * list string * list (string * option exn) =>
                zip_files (getcwd c) py_dir include_base_name w.1.1 w.2)
             (walk py_dir t) with
  | Ok members => _ ← zip_close c py_archive; mret (py_archive, concat members)
  | Err e => _ ← zip_close c py_archive; Err e
  end.

(** ** Freshness of an uploaded archive *)

(** The remote file system: the content of every file, by path. *)
Abbreviation remote_fs := (gmap string string).

(** Modelled from the spec: [_get_archive_metadata_path], which is not in
    the module; the metadata path is the archive path with its extension
    replaced by [.json]. *)
Definition _get_archive_metadata_path (package_path : string) : string :=
  fst (posixpath.splitext package_path) +:+ ".json".

(** The requirement mapping a metadata document denotes: an object whose
    values are all version strings; any other document denotes none. *)
Definition as_requirements (j : json) : option (gmap string string) :=
  match j with
  | JObj members =>
      let m := obj_map members in
      if bool_decide (map_Forall (fun _ v => is_Some (str_of v)) m)
      then Some (omap str_of m) else None
  | _ => None
  end.

Section Freshness.

Variable json_loads : string -> option json.

(** Modelled from the spec: [_is_archive_up_to_date], which is not in the
    module.  It answers [false] when the archive or its metadata file
    does not exist; otherwise it parses the metadata and answers whether
    the mapping it holds is equal to [current_requirements].  Metadata
    that is not JSON raises the parse error. *)
Definition _is_archive_up_to_date (fs : remote_fs) (package_path : string)
    (current_requirements : gmap string string) : result bool :=
  if negb (bool_decide (is_Some (fs !! package_path))) then Ok false
  else
    match fs !! _get_archive_metadata_path package_path with
    | None => Ok false
    | Some content =>
        match json_loads content with
        | None => Err (JSONDecodeError content)
        | Some packages_installed =>
            Ok (bool_decide
                  (as_requirements packages_installed = Some current_requirements))
        end
    end.

End Freshness.

(** ** A JSON reader for the examples *)

(** The properties below hold for every [json_loads].  The examples need
    one that computes: [json_read] follows [json.loads] on documents made
    of [null], booleans, integers, strings without [\u] escapes, arrays and
    objects, and rejects every other text. *)
Module JsonRead.

Definition is_ws (a : ascii) : bool :=
  match a with
  | " " | "009" | "010" | "013" => true
  | _ => false
  end%char.

Fixpoint skip_ws (s : string) : string :=
  match s with
  | EmptyString => EmptyString
  | String a s' => if is_ws a then skip_ws s' else s
  end.

Definition unescape (a : ascii) : option ascii :=
  match a with
  | "034" => Some "034"
  | "\" => Some "\"
  | "/" => Some "/"
  | "b" => Some "008"
  | "f" => Some "012"
  | "n" => Some "010"
  | "r" => Some "013"
  | "t" => Some "009"
  | _ => None
  end%char.

(** The characters of a string literal after its opening quote, and the
    text after its closing quote. *)
Fixpoint read_string (s : string) : option (string * string) :=
  match s with
  | EmptyString => None
  | String a s' =>
      if Ascii.eqb a "034" then Some (EmptyString, s')
      else if Ascii.eqb a "\" then
        match s' with
        | String b s'' =>
            match unescape b, read_string s'' with
            | Some ch, Some (r, rest) => Some (String ch r, rest)
            | _, _ => None
            end
        | EmptyString => None
        end
      else if (nat_of_ascii a <? 32)%nat then None
      else match read_string s' with
           | Some (r, rest) => Some (String a r, rest)
           | None => None
           end
  end.

Definition digit (a : ascii) : option Z :=
  match Ascii.is_nat a with
  | Some n => Some (Z.of_nat n)
  | None => None
  end.

Fixpoint read_digits (s : string) (acc : Z) : Z * string :=
  match s with
  | EmptyString => (acc, EmptyString)
  | String a s' =>
      match digit a with
      | Some d => read_digits s' (10 * acc + d)
      | None => (acc, s)
      end
  end.

(** An integer: [0], or digits that start with none; a fraction or an
    exponent after it is refused. *)
Definition read_int (s : string) : option (Z * string) :=
  match s with
  | EmptyString => None
  | String a s' =>
      match digit a with
      | None => None
      | Some d =>
          let '(n, rest) := if d =? 0 then (0, s') else read_digits s 0 in
          match rest with
          | String b _ =>
              if Ascii.eqb b "." || Ascii.eqb b "e" || Ascii.eqb b "E"
              then None else Some (n, rest)
          | EmptyString => Some (n, rest)
          end
      end
  end.

Definition read_number (s : string) : option (Z * string) :=
  match s with
  | String "-"%char s' =>
      match read_int s' with
      | Some (n, rest) => Some (- n, rest)
      | None => None
      end
  | _ => read_int s
  end.

Fixpoint read_value (fuel : nat) (s : string) {struct fuel}
  : option (json * string) :=
  match fuel with
  | O => None
  | S fuel' =>
      match skip_ws s with
      | EmptyString => None
      | String a s' =>
          if Ascii.eqb a "[" then
            match skip_ws s' with
            | String "]"%char r => Some (JArr [], r)
            | _ =>
                match read_elements fuel' s' with
                | Some (l, r) => Some (JArr l, r)
                | None => None
                end
            end
          else if Ascii.eqb a "{" then
            match skip_ws s' with
            | String "}"%char r => Some (JObj [], r)
            | _ =>
                match read_members fuel' s' with
                | Some (l, r) => Some (JObj l, r)
                | None => None
                end
            end
          else if Ascii.eqb a "034" then
            match read_string s' with
            | Some (x, r) => Some (JStr x, r)
            | None => None
            end
          else if PyStr.startswith "null" (String a s') then
            Some (JNull, PyStr.drop 4 (String a s'))
          else if PyStr.startswith "true" (String a s') then
            Some (JBool true, PyStr.drop 4 (String a s'))
          else if PyStr.startswith "false" (String a s') then
            Some (JBool false, PyStr.drop 5 (String a s'))
          else
            match read_number (String a s') with
            | Some (n, r) => Some (JNum n, r)
            | None => None
            end
      end
  end
with read_elements (fuel : nat) (s : string) {struct fuel}
  : option (list json * string) :=
  match fuel with
  | O => None
  | S fuel' =>
      match read_value fuel' s with
      | None => None
      | Some (v, r) =>
          match skip_ws r with
          | String ","%char r' =>
              match read_elements fuel' r' with
              | Some (l, r'') => Some (v :: l, r'')
              | None => None
              end
          | String "]"%char r' => Some ([v], r')
          | _ => None
          end
      end
  end
with read_members (fuel : nat) (s : string) {struct fuel}
  : option (list (string * json) * string) :=
  match fuel with
  | O => None
  | S fuel' =>
      match skip_ws s with
      | String "034"%char s' =>
          match read_string s' with
          | None => None
          | Some (k, r) =>
              match skip_ws r with
              | String ":"%char r' =>
                  match read_value fuel' r' with
                  | None => None
                  | Some (v, r'') =>
                      match skip_ws r'' with
                      | String ","%char r3 =>
                          match read_members fuel' r3 with
                          | Some (l, r4) => Some ((k, v) :: l, r4)
                          | None => None
                          end
                      | String "}"%char r3 => Some ([(k, v)], r3)
                      | _ => None
                      end
                  end
              | _ => None
              end
          end
      | _ => None
      end
  end.

(** The whole text is one value between optional white space. *)
Definition json_read (s : string) : option json :=
  match read_value (2 * String.length s + 2) s with
  | Some (v, rest) =>
      if String.eqb (skip_ws rest) "" then Some v else None
  | None => None
  end.

End JsonRead.

(** Text with every apostrophe turned into a double quote, to write JSON
    in the examples. *)
Fixpoint dq (s : string) : string :=
  match s with
  | EmptyString => EmptyString
  | String a s' => String (if Ascii.eqb a "'" then "034"%char else a) (dq s')
  end.

(** A process running from the pex [/home/j.doe/myapp.pex]. *)
Definition ctx_pex : Ctx := {|
  environ := {[ "PEX" := "/home/j.doe/myapp.pex" ]};
  pex_module_file := None;
  getcwd := "/home/j.doe";
  sys_executable := "/usr/bin/python3";
  getuser := "j.doe";
  hdfs_getconf := Ok "hdfs://root
";
  read_file := fun path =>
    if String.eqb path "/work/editable_packages_index"
    then Some "user-lib
not-existing-pgk
" else None;
  find_module := fun name =>
    if String.eqb name "user-lib" then Found (Some "/src/tests/user-lib")
    else if String.eqb name "sys" then Found None
    else ImportError;
  pip_list := fun _ _ => Err (CalledProcessError 1 "No module named pip");
  mkdtemp := "/tmp/tmpdir1";
  copytree := fun _ _ => Ok ();
  run := fun _ => Ok (0, "");
  zip_open := fun _ => Ok ();
  zip_close := fun _ => Ok ()
|}.

(** A process running from a pex found by importing [_pex]. *)
Definition ctx_legacy_pex : Ctx := {|
  environ := ∅;
  pex_module_file :=
    Some "./current_directory/filename.pex/.bootstrap/_pex/__init__.pyc";
  getcwd := "/home/j.doe";
  sys_executable := "/usr/bin/python3";
  getuser := "j.doe";
  hdfs_getconf := Ok "hdfs://root
";
  read_file := fun _ => None;
  find_module := fun _ => ImportError;
  pip_list := fun _ _ => Err (CalledProcessError 1 "No module named pip");
  mkdtemp := "/tmp/tmpdir2";
  copytree := fun _ _ => Ok ();
  run := fun _ => Ok (0, "");
  zip_open := fun _ => Ok ();
  zip_close := fun _ => Ok ()
|}.

(** The extension test of [detect_archive_names] on a given path. *)
Definition right_extension (packer : Packer) (p : string) : bool :=
  String.eqb (snd (posixpath.splitext p)) ("." +:+ extension packer).

(** The process [c] with another answer of [pip list]. *)
Definition with_pip_list (c : Ctx) (out : result string) : Ctx := {|
  environ := environ c;
  pex_module_file := pex_module_file c;
  getcwd := getcwd c;
  sys_executable := sys_executable c;
  getuser := getuser c;
  hdfs_getconf := hdfs_getconf c;
  read_file := read_file c;
  find_module := find_module c;
  pip_list := fun _ _ => out;
  mkdtemp := mkdtemp c;
  copytree := copytree c;
  run := run c;
  zip_open := zip_open c;
  zip_close := zip_close c
|}.


(** The remote file system of the freshness tests: the archive and the
    metadata [metadata] beside it. *)
Definition fs_with_metadata (metadata : string) : remote_fs :=
  {[ "myarchive.pex" := "PEX"; "myarchive.json" := metadata ]}.

(** *** The files of a directory tree *)

(** A name a directory entry can have: not empty, without a slash, and
    neither [.] nor [..]. *)
Definition valid_name (x : string) : bool :=
  negb (String.eqb x "") && negb (PyStr.contains posixpath.sep x)
  && negb (String.eqb x ".") && negb (String.eqb x "..").

(** Every file and every directory of the tree has a valid name. *)
Fixpoint wf_tree (t : tree) : bool :=
  match t with
  | Dir files dirs =>
      forallb (fun fe : string * option exn => valid_name fe.1) files
      && forallb (fun dt : string * (bool * tree) =>
                    valid_name dt.1 && wf_tree dt.2.2) dirs
  end.

(** Every file of the directories [os.walk] enters, with the names of the
    directories that lead to it from the top, in the order [walk] meets
    them. *)
Fixpoint tree_files (t : tree) : list (list string * string) :=
  match t with
  | Dir files dirs =>
      map (fun fe : string * option exn => ([], fe.1)) files
      ++ flat_map
           (fun dt : string * (bool * tree) =>
              if dt.2.1 then
                map (fun df : list string * string => (dt.1 :: df.1, df.2))
                  (tree_files dt.2.2)
              else [])
           dirs
  end.

(** Every file under the directory, also through the sub-directories
    [os.walk] does not enter. *)
Fixpoint all_files (t : tree) : list (list string * string) :=
  match t with
  | Dir files dirs =>
      map (fun fe : string * option exn => ([], fe.1)) files
      ++ flat_map
           (fun dt : string * (bool * tree) =>
              map (fun df : list string * string => (dt.1 :: df.1, df.2))
                (all_files dt.2.2))
           dirs
  end.




(** The directory of the repository's test of [zip_path]. *)
Definition test_tree : tree :=
  Dir [("boo.bin", None); ("stale.pyc", None)]
      [("foo", (true, Dir [("bar.txt", None)] []));
       ("py-lib",
        (true, Dir [("bar.py", None)]
                   [("__pycache__",
                     (true, Dir [("bar.cpython-36.pyc", None)] []))]))].

(** A directory with a symbolic link [link] to a directory that holds
    [x.txt]. *)
Definition link_tree : tree :=
  Dir [("a.txt", None)] [("link", (false, Dir [("x.txt", None)] []))].

(** A directory with a dangling symbolic link. *)
Definition dangling_tree : tree :=
  Dir [("a.txt", None); ("dangling.txt", Some FileNotFoundError)] [].


(** The absolute form [abspath] normalises: the path itself, or the path
    joined to the working directory. *)
Definition anchored (cwd path : string) : string :=
  if posixpath.isabs path then path else posixpath.join2 cwd path.

(** The components [normpath] keeps of an absolute path. *)
Definition norm_stack (s : string) : list string :=
  fold_left (posixpath.normpath_step 1) (PyStr.split posixpath.sep s) [].





(** ** Requirement lists *)

(** [format_requirements(requirements)]: the dictionary is its list of
    items, [None] when the caller passes [None]; a version that is the
    empty string is no version. *)
Definition format_requirements (requirements : option (list (string * string)))
  : list string :=
  match requirements with
  | None => []
  | Some items =>
      map (fun kv : string * string =>
             if negb (String.eqb kv.2 "") then kv.1 +:+ "==" +:+ kv.2 else kv.1)
          items
  end.

(** The lines [pack_spec_in_pex] keeps of a specification file: those
    that are not empty and do not start with [#]. *)
Definition spec_lines (content : string) : list string :=
  List.filter
    (fun line => negb (String.eqb line "") && negb (PyStr.startswith "#" line))
    (splitlines content).

(** [pack_spec_in_pex(spec_file, output, pex_inherit_path)]; opening a file
    that does not exist raises [FileNotFoundError]. *)
Definition pack_spec_in_pex (c : Ctx) (spec_file output pex_inherit_path : string)
  : result string :=
  match read_file c spec_file with
  | None => Err FileNotFoundError
  | Some content =>
      pack_in_pex c (spec_lines content) output [] pex_inherit_path []
  end.

(** The process [c] with another answer of the file system query. *)
Definition with_hdfs_getconf (c : Ctx) (out : result string) : Ctx := {|
  environ := environ c;
  pex_module_file := pex_module_file c;
  getcwd := getcwd c;
  sys_executable := sys_executable c;
  getuser := getuser c;
  hdfs_getconf := out;
  read_file := read_file c;
  find_module := find_module c;
  pip_list := pip_list c;
  mkdtemp := mkdtemp c;
  copytree := copytree c;
  run := run c;
  zip_open := zip_open c;
  zip_close := zip_close c
|}.

(** The process [c] with another build tool. *)
Definition with_run (c : Ctx) (r : list string -> result (Z * string)) : Ctx := {|
  environ := environ c;
  pex_module_file := pex_module_file c;
  getcwd := getcwd c;
  sys_executable := sys_executable c;
  getuser := getuser c;
  hdfs_getconf := hdfs_getconf c;
  read_file := read_file c;
  find_module := find_module c;
  pip_list := pip_list c;
  mkdtemp := mkdtemp c;
  copytree := copytree c;
  run := r;
  zip_open := zip_open c;
  zip_close := zip_close c
|}.


(** The process [c] with other files to read. *)
Definition with_read_file (c : Ctx) (f : string -> option string) : Ctx := {|
  environ := environ c;
  pex_module_file := pex_module_file c;
  getcwd := getcwd c;
  sys_executable := sys_executable c;
  getuser := getuser c;
  hdfs_getconf := hdfs_getconf c;
  read_file := f;
  find_module := find_module c;
  pip_list := pip_list c;
  mkdtemp := mkdtemp c;
  copytree := copytree c;
  run := run c;
  zip_open := zip_open c;
  zip_close := zip_close c
|}.

(** A process with a specification file [requirements.txt]. *)
Definition ctx_spec : Ctx :=
  with_read_file ctx0
    (fun path =>
       if String.eqb path "requirements.txt"
       then Some "# pinned
cloudpickle==1.2.1

numpy
" else None).

(** Standard error that is not ASCII: the two bytes of an accented letter
    in UTF-8. *)
Definition non_ascii_stderr : string :=
  String "195"%char (String "169"%char EmptyString).

(** A process whose build tool accepts one command only. *)
Definition ctx_build : Ctx :=
  with_run ctx0
    (fun cmd =>
       if bool_decide (cmd = ["pex"; "--inherit-path=prefer"; "b==2.0"; "-o";
                              "out.pex"])
       then Ok (0, "") else Ok (2, "usage: pex [options]")).

(** A process whose virtual environment is given with a slash at its
    end. *)
Definition ctx_slash_env : Ctx := {|
  environ := {[ "VIRTUAL_ENV" := "/path/to/my_venv/" ]};
  pex_module_file := None;
  getcwd := "/home/j.doe";
  sys_executable := "/path/to/my_venv/bin/python";
  getuser := "j.doe";
  hdfs_getconf := Ok "hdfs://root
";
  read_file := fun _ => None;
  find_module := fun _ => ImportError;
  pip_list := fun _ _ => Ok "[]
";
  mkdtemp := "/tmp/tmpdir3";
  copytree := fun _ _ => Ok ();
  run := fun _ => Ok (0, "");
  zip_open := fun _ => Ok ();
  zip_close := fun _ => Ok ()
|}.

(** A process running from a pex, with an index that names a module kept
    in one file, and another index that names a built-in module. *)
Definition ctx_modules : Ctx := {|
  environ := {[ "PEX" := "/home/j.doe/myapp.pex" ]};
  pex_module_file := None;
  getcwd := "/home/j.doe";
  sys_executable := "/usr/bin/python3";
  getuser := "j.doe";
  hdfs_getconf := Ok "hdfs://root
";
  read_file := fun path =>
    if String.eqb path "/work/editable_packages_index" then Some "mod_b
"
    else if String.eqb path "/builtin/editable_packages_index" then Some "sys
"
    else None;
  find_module := fun name =>
    if String.eqb name "mod_b" then Found (Some "/site/mod_b.py")
    else if String.eqb name "sys" then Found None
    else ImportError;
  pip_list := fun _ _ => Err (CalledProcessError 1 "No module named pip");
  mkdtemp := "/tmp/tmpdir4";
  copytree := fun _ _ => Ok ();
  run := fun _ => Ok (0, "");
  zip_open := fun _ => Ok ();
  zip_close := fun _ => Ok ()
|}.

(** * Properties *)

(** ** Examples of the path functions and of the naming functions *)
Example basename_venv : posixpath.basename "/path/to/my_venv" = "my_venv".
Proof. reflexivity. Qed.

Example splitext_tar_gz :
  posixpath.splitext "myarchive.tar.gz" = ("myarchive.tar", ".gz").
Proof. reflexivity. Qed.

Example splitext_hidden : posixpath.splitext "/a.b/.bashrc" = ("/a.b/.bashrc", "").
Proof. reflexivity. Qed.

Example splitext_dots : posixpath.splitext "..a.b" = ("..a", ".b").
Proof. reflexivity. Qed.

Example dirname_pex :
  posixpath.dirname (posixpath.dirname (posixpath.dirname
    "./current_directory/filename.pex/.bootstrap/_pex/__init__.pyc"))
  = "./current_directory/filename.pex".
Proof. reflexivity. Qed.

Example abspath_pex :
  posixpath.abspath "/home/j.doe" "./current_directory/filename.pex"
  = "/home/j.doe/current_directory/filename.pex".
Proof. reflexivity. Qed.

Example normpath_dotdot : posixpath.normpath "//a/./b/../../../c/" = "//c".
Proof. reflexivity. Qed.

Example relpath_sub :
  posixpath.relpath "/home/j.doe" "proj/foo/bar" "proj" = Ok "foo/bar".
Proof. reflexivity. Qed.

Example relpath_up :
  posixpath.relpath "/home/j.doe" "/home/x" "proj" = Ok "../../x".
Proof. reflexivity. Qed.

Example get_env_name_venv : get_env_name ctx0 "VIRTUAL_ENV" = "my_venv".
Proof. vm_compute. reflexivity. Qed.

Example get_env_name_absent : get_env_name ctx0 "VARNAME" = "default".
Proof. vm_compute. reflexivity. Qed.

Example conda_env_name : env_name ctx0 CONDA_PACKER = Ok "myenv".
Proof. vm_compute. reflexivity. Qed.

Example detect_default_pex :
  detect_archive_names ctx0 PEX_PACKER None
  = Ok ("hdfs://root/user/j.doe/envs/my_venv.pex", "my_venv", "").
Proof. vm_compute. reflexivity. Qed.

Example detect_explicit_pex :
  detect_archive_names ctx0 PEX_PACKER (Some "/user/j.doe/blah.pex")
  = Ok ("/user/j.doe/blah.pex", "my_venv", "").
Proof. vm_compute. reflexivity. Qed.

Example detect_spec_requirements :
  detect_packer_from_spec "/proj/requirements.txt" = Ok PEX_PACKER.
Proof. vm_compute. reflexivity. Qed.

Example detect_spec_yml :
  detect_packer_from_spec "env.yml" = Ok CONDA_PACKER.
Proof. vm_compute. reflexivity. Qed.


(** ** Strings *)

Lemma str_app_nil_l (t : string) : "" +:+ t = t.
Proof. reflexivity. Qed.

Lemma str_app_cons (a : ascii) (s t : string) :
  String a s +:+ t = String a (s +:+ t).
Proof. reflexivity. Qed.

Ltac app_simpl := rewrite ?str_app_nil_l, ?str_app_cons; simpl.

#[local] Arguments String.eqb : simpl never.

Section StringFacts.
Import PyStr.

Lemma app_empty_r (s : string) : s +:+ "" = s.
Proof. induction s as [|a s IH]; app_simpl; [reflexivity | now rewrite IH]. Qed.

Lemma app_assoc_str (s t u : string) : (s +:+ t) +:+ u = s +:+ t +:+ u.
Proof. induction s as [|a s IH]; app_simpl; [reflexivity | now rewrite IH]. Qed.

Lemma length_app_str (s t : string) :
  String.length (s +:+ t) = (String.length s + String.length t)%nat.
Proof. induction s as [|a s IH]; app_simpl; [reflexivity | now rewrite IH]. Qed.

Lemma eqb_true_iff (s t : string) : String.eqb s t = true <-> s = t.
Proof. apply String.eqb_eq. Qed.

Lemma eqb_false_iff (s t : string) : String.eqb s t = false <-> s <> t.
Proof. apply String.eqb_neq. Qed.

Lemma contains_app (c : ascii) (s t : string) :
  contains c (s +:+ t) = contains c s || contains c t.
Proof.
  induction s as [|a s IH]; app_simpl; [reflexivity|].
  rewrite IH. now rewrite orb_assoc.
Qed.

(** *** [endswith] *)

Lemma endswith_refl (s : string) : endswith s s = true.
Proof. destruct s; simpl; [reflexivity | now rewrite String.eqb_refl]. Qed.

Lemma endswith_app (suf p : string) : endswith suf (p +:+ suf) = true.
Proof.
  induction p as [|a p IH]; app_simpl.
  - apply endswith_refl.
  - rewrite IH. apply orb_true_r.
Qed.

Lemma endswith_spec (suf s : string) :
  endswith suf s = true <-> exists p, s = p +:+ suf.
Proof.
  split.
  - induction s as [|a s IH]; simpl; rewrite orb_true_iff.
    + intros [H|H]; [|discriminate].
      apply eqb_true_iff in H. subst suf. now exists "".
    + intros [H|H].
      * apply eqb_true_iff in H. subst suf. now exists "".
      * destruct (IH H) as [p ->]. now exists (String a p).
  - intros [p ->]. apply endswith_app.
Qed.

Lemma endswith_contains (c : ascii) (suf s : string) :
  endswith suf s = true -> contains c suf = true -> contains c s = true.
Proof.
  intros [p ->]%endswith_spec H. rewrite contains_app, H. apply orb_true_r.
Qed.

(** A suffix without the character [c] lies after the last [c]. *)
Lemma endswith_after_sep (c : ascii) (suf p f : string) :
  contains c suf = false ->
  endswith suf (p +:+ String c f) = endswith suf f.
Proof.
  intros Hc. induction p as [|a p IH]; app_simpl.
  - destruct (String.eqb (String c f) suf) eqn:E; [|reflexivity].
    apply eqb_true_iff in E. subst suf. simpl in Hc.
    rewrite Ascii.eqb_refl in Hc. discriminate.
  - rewrite IH.
    destruct (String.eqb (String a (p +:+ String c f)) suf) eqn:E; [|reflexivity].
    apply eqb_true_iff in E. subst suf. simpl in Hc.
    rewrite contains_app in Hc. simpl in Hc.
    rewrite Ascii.eqb_refl in Hc. simpl in Hc.
    rewrite !orb_true_r in Hc. discriminate.
Qed.

(** *** [split] and [join] *)

Lemma split_not_nil (c : ascii) (s : string) : split c s <> [].
Proof.
  induction s as [|a s IH]; simpl; [discriminate|].
  destruct (Ascii.eqb a c); [discriminate|].
  destruct (split c s); [contradiction | discriminate].
Qed.

Lemma split_no_sep (c : ascii) (s : string) :
  contains c s = false -> split c s = [s].
Proof.
  induction s as [|a s IH]; simpl; [reflexivity|].
  intros [Ha Hs]%orb_false_iff. rewrite Ha, (IH Hs). reflexivity.
Qed.

Lemma split_app_sep (c : ascii) (s t : string) :
  split c (s +:+ String c t) = split c s ++ split c t.
Proof.
  induction s as [|a s IH]; app_simpl.
  - now rewrite Ascii.eqb_refl.
  - rewrite IH. destruct (Ascii.eqb a c); [reflexivity|].
    pose proof (split_not_nil c s) as Hne.
    destruct (split c s); [contradiction | reflexivity].
Qed.

Lemma split_sep_free (c : ascii) (s : string) :
  Forall (fun w => contains c w = false) (split c s).
Proof.
  induction s as [|a s IH]; simpl.
  - now constructor.
  - destruct (Ascii.eqb a c) eqn:E.
    + now constructor.
    + destruct (split c s) as [|w ws].
      { repeat constructor. simpl. now rewrite E. }
      inversion IH; subst. constructor; [|assumption].
      simpl. now rewrite E.
Qed.

Lemma join_cons (sp x : string) (y : string) (l : list string) :
  join sp (x :: y :: l) = x +:+ sp +:+ join sp (y :: l).
Proof. reflexivity. Qed.


(** *** [startswith] *)

Lemma startswith_1_app (a : ascii) (s t : string) :
  s <> "" ->
  startswith (String a "") (s +:+ t) = startswith (String a "") s.
Proof.
  intros Hs. destruct s as [|b s]; [contradiction|].
  unfold startswith. app_simpl. destruct (ascii_dec a b); [|reflexivity].
  now destruct (s +:+ t), s.
Qed.

End StringFacts.

(** ** Paths *)

Section PathFacts.
Import PyStr posixpath.

Lemma str_drop_app_length (p s : string) : drop (String.length p) (p +:+ s) = s.
Proof. induction p as [|a p IH]; app_simpl; [reflexivity | exact IH]. Qed.

Lemma str_take_app_length (p s : string) : take (String.length p) (p +:+ s) = p.
Proof. induction p as [|a p IH]; app_simpl; [reflexivity | now rewrite IH]. Qed.

(** [rfind] either finds nothing, or splits the string at the last
    occurrence. *)
Lemma rfind_decomp (c : ascii) (s : string) :
  (contains c s = false /\ rfind c s = -1)
  \/ (exists p f, s = p +:+ String c f /\ contains c f = false
                  /\ rfind c s = Z.of_nat (String.length p)).
Proof.
  induction s as [|a s IH]; simpl.
  - now left.
  - destruct IH as [[Hc Hr]|(p & f & -> & Hf & Hr)].
    + rewrite Hr, Hc. simpl. destruct (Ascii.eqb a c) eqn:E.
      * right. exists "", s. apply Ascii.eqb_eq in E. subst a.
        repeat split; assumption.
      * now left.
    + right. exists (String a p), f. rewrite Hr.
      destruct (0 <=? Z.of_nat (String.length p)) eqn:E; [|lia].
      repeat split; [assumption|]. simpl String.length. lia.
Qed.

Lemma basename_cases (s : string) :
  (contains sep s = false /\ basename s = s)
  \/ (exists p f, s = p +:+ String sep f /\ contains sep f = false
                  /\ basename s = f).
Proof.
  unfold basename, slice_from.
  destruct (rfind_decomp sep s) as [[Hc Hr]|(p & f & -> & Hf & Hr)].
  - left. now rewrite Hr.
  - right. exists p, f. repeat split; [assumption|]. rewrite Hr.
    replace (Z.to_nat (Z.of_nat (String.length p) + 1))
      with (String.length (p +:+ String sep "")).
    + replace (p +:+ String sep f) with ((p +:+ String sep "") +:+ f).
      * apply str_drop_app_length.
      * now rewrite app_assoc_str.
    + rewrite length_app_str. simpl. lia.
Qed.

Lemma basename_sep_free (s : string) : contains sep (basename s) = false.
Proof.
  destruct (basename_cases s) as [[Hc ->]|(p & f & _ & Hf & ->)]; assumption.
Qed.

(** A suffix without a slash ends a path exactly when it ends the path's
    last component. *)
Lemma endswith_basename (suf s : string) :
  contains sep suf = false ->
  endswith suf s = endswith suf (basename s).
Proof.
  intros Hsuf.
  destruct (basename_cases s) as [[Hc ->]|(p & f & -> & Hf & ->)];
    [reflexivity|].
  now apply endswith_after_sep.
Qed.

Lemma splitext_loop_snd (n : nat) (p : string) (i d : Z) :
  snd (splitext_loop n p i d) = "" \/ snd (splitext_loop n p i d) = slice_from d p.
Proof.
  revert i. induction n as [|n IH]; intros i; simpl; [now left|].
  destruct (negb _); [now right | apply IH].
Qed.

(** The extension [splitext] returns is empty or starts at the last dot. *)
Lemma splitext_ext (p : string) :
  snd (splitext p) = ""
  \/ exists e, snd (splitext p) = String extsep e /\ contains extsep e = false.
Proof.
  unfold splitext.
  destruct (rfind sep p <? rfind extsep p) eqn:Hlt; [|now left].
  apply Z.ltb_lt in Hlt.
  destruct (splitext_loop_snd (Z.to_nat (rfind extsep p - (rfind sep p + 1)))
              p (rfind sep p + 1) (rfind extsep p)) as [->| ->]; [now left|].
  right. unfold slice_from.
  destruct (rfind_decomp extsep p) as [[_ Hr]|(q & f & Hp & Hf & Hr)].
  - destruct (rfind_decomp sep p) as [[_ Hs]|(? & ? & _ & _ & Hs)]; lia.
  - exists f. split; [|assumption]. rewrite Hr, Nat2Z.id.
    rewrite Hp at 1. apply str_drop_app_length.
Qed.

Lemma join_chars (s : string) : PyStr.join "" (chars s) = s.
Proof.
  induction s as [|a s IH]; [reflexivity|].
  simpl chars. destruct s as [|b s]; [reflexivity|].
  simpl chars in *. rewrite join_cons. rewrite IH. reflexivity.
Qed.

End PathFacts.

(** ** Results *)

Lemma bind_Ok {A B : Type} (a : A) (k : A -> result B) : (Ok a ≫= k) = k a.
Proof. reflexivity. Qed.

Lemma bind_Err {A B : Type} (e : exn) (k : A -> result B) : (Err e ≫= k) = Err e.
Proof. reflexivity. Qed.

Lemma bind_Ok_inv {A B : Type} (r : result A) (k : A -> result B) (b : B) :
  (r ≫= k) = Ok b -> exists a, r = Ok a /\ k a = Ok b.
Proof. destruct r as [a|e]; [eauto | discriminate]. Qed.

Ltac unfold_result := unfold mbind, result_bind, mret, result_ret in *.

(** ** Archive names *)

Section Names.
Import PyStr posixpath.

Lemma running_from_pex_filepath (c : Ctx) :
  _running_from_pex c = true ->
  exists pex_file, get_current_pex_filepath c = Ok pex_file.
Proof.
  unfold _running_from_pex, get_current_pex_filepath.
  case_bool_decide as H.
  - destruct H as [v ->]. eauto.
  - destruct (environ c !! "PEX"); [eauto|].
    destruct (pex_module_file c); [eauto | discriminate].
Qed.

(** The call with a path given: the names come from the process, the path
    is returned as it is, or refused for its extension. *)
Lemma detect_archive_names_explicit (c : Ctx) (packer : Packer) (p : string) :
  p <> "" ->
  detect_archive_names c packer (Some p)
  = (if _running_from_pex c then
       pex_file ← get_current_pex_filepath c;
       mret (pex_file, fst (splitext (basename pex_file)))
     else
       name ← env_name c packer;
       mret (EmptyString, name)) ≫=
    (fun '(pex_file, name) =>
       if right_extension packer p then Ok (p, name, pex_file)
       else Err (ValueError (p +:+ " has the wrong extension" +:+ ", ."
                               +:+ extension packer +:+ " is expected"))).
Proof.
  intros Hp. unfold detect_archive_names, right_extension. simpl default.
  apply eqb_false_iff in Hp. rewrite Hp, join_chars.
  destruct (if _running_from_pex c then _ else _) as [[pex_file name]|e];
    [|reflexivity].
  unfold_result. simpl.
  destruct (String.eqb (splitext p).2 _); reflexivity.
Qed.

(** The call without a path. *)
Lemma detect_archive_names_default (c : Ctx) (packer : Packer)
    (package_path : option string) :
  package_path = None \/ package_path = Some "" ->
  detect_archive_names c packer package_path
  = (if _running_from_pex c then
       pex_file ← get_current_pex_filepath c;
       mret (pex_file, fst (splitext (basename pex_file)))
     else
       name ← env_name c packer;
       mret (EmptyString, name)) ≫=
    (fun '(pex_file, name) =>
       fs ← get_default_fs c;
       mret (fs +:+ "/user/" +:+ getuser c +:+ "/envs/" +:+ name
               +:+ "." +:+ extension packer, name, pex_file)).
Proof.
  intros [-> | ->]; unfold detect_archive_names; simpl default;
    (destruct (if _running_from_pex c then _ else _) as [[pex_file name]|e];
     [|reflexivity]);
    unfold_result; simpl; destruct (get_default_fs c); reflexivity.
Qed.

(** Whatever [detect_archive_names] returns, its names come from the
    process alone. *)
Lemma detect_archive_names_names (c : Ctx) (packer : Packer)
    (package_path : option string) (path name pex : string) :
  detect_archive_names c packer package_path = Ok (path, name, pex) ->
  (if _running_from_pex c then
     pex_file ← get_current_pex_filepath c;
     mret (pex_file, fst (splitext (basename pex_file)))
   else
     name ← env_name c packer;
     mret (EmptyString, name)) = Ok (pex, name).
Proof.
  unfold detect_archive_names.
  destruct (if _running_from_pex c then _ else _) as [[pex_file name']|e];
    [|discriminate].
  unfold_result. simpl.
  destruct (String.eqb (default "" package_path) "").
  - destruct (get_default_fs c); [|discriminate]. intros [= _ -> ->]. reflexivity.
  - destruct (negb _); [discriminate|]. intros [= _ -> ->]. reflexivity.
Qed.

End Names.

Section NameClaims.
Import PyStr posixpath.

(** No path has the extension [.tar.gz] for [splitext]: the extension it
    returns holds one dot. *)
Lemma conda_extension_never_right (p : string) :
  right_extension CONDA_PACKER p = false.
Proof.
  unfold right_extension. apply eqb_false_iff. intros H.
  destruct (splitext_ext p) as [E | (e & E & He)]; rewrite E in H.
  - discriminate.
  - injection H as ->. discriminate.
Qed.

(** The conda packer refuses every path the caller gives. *)
Lemma conda_explicit_path_refused (c : Ctx) (p : string)
    (r : string * string * string) :
  p <> "" -> detect_archive_names c CONDA_PACKER (Some p) <> Ok r.
Proof.
  intros Hp. rewrite (detect_archive_names_explicit _ _ _ Hp).
  rewrite conda_extension_never_right.
  destruct (if _running_from_pex c then _ else _) as [[pex_file name]|e];
    discriminate.
Qed.

(** The pex packer accepts a given path exactly when [splitext] finds the
    extension [.pex], once the names are known. *)
Lemma pex_explicit_path_accepted (c : Ctx) (p name : string) :
  p <> "" -> _running_from_pex c = false -> env_name c PEX_PACKER = Ok name ->
  detect_archive_names c PEX_PACKER (Some p)
  = if String.eqb (snd (splitext p)) ".pex" then Ok (p, name, "")
    else Err (ValueError (p +:+ " has the wrong extension, .pex is expected")).
Proof.
  intros Hp Hrun Hname. rewrite (detect_archive_names_explicit _ _ _ Hp).
  rewrite Hrun, Hname. reflexivity.
Qed.

(** C2, a defect of the code: a path that ends in the conda packer's own
    tag [.tar.gz] is refused with the [ValueError] that says [.tar.gz] is
    expected, in every process; [detect_packer_from_file] does take such a
    path for a conda archive. *)
Theorem conda_tar_gz_path_refused :
  detect_archive_names ctx0 CONDA_PACKER (Some "myarchive.tar.gz")
  = Err (ValueError
           "myarchive.tar.gz has the wrong extension, .tar.gz is expected")
  /\ (forall (c : Ctx) (r : string * string * string),
        detect_archive_names c CONDA_PACKER (Some "myarchive.tar.gz") <> Ok r)
  /\ PyStr.endswith ("." +:+ extension CONDA_PACKER) "myarchive.tar.gz" = true
  /\ detect_packer_from_file "myarchive.tar.gz" = Ok CONDA_PACKER.
Proof.
  split; [vm_compute; reflexivity|].
  split; [|split; vm_compute; reflexivity].
  intros c r. apply conda_explicit_path_refused. discriminate.
Qed.

(** C3: inside a bundle the environment name is the stem of the bundle's
    file name; outside, it is the packer's [env_name()], which for the pex
    packer is [get_env_name('VIRTUAL_ENV')]: the base name of the
    variable's value, and ['default'] when the variable is absent or
    empty. *)
Theorem env_name_derivation (c : Ctx) (packer : Packer)
    (package_path : option string) :
  (_running_from_pex c = true ->
   exists pex_file,
     get_current_pex_filepath c = Ok pex_file
     /\ (forall path name pex,
           detect_archive_names c packer package_path = Ok (path, name, pex) ->
           name = fst (splitext (basename pex_file)) /\ pex = pex_file)
     /\ (forall p, p <> "" -> right_extension packer p = true ->
           detect_archive_names c packer (Some p)
           = Ok (p, fst (splitext (basename pex_file)), pex_file)))
  /\ (_running_from_pex c = false ->
      (forall path name pex,
         detect_archive_names c packer package_path = Ok (path, name, pex) ->
         env_name c packer = Ok name /\ pex = "")
      /\ (forall p name, p <> "" -> right_extension packer p = true ->
            env_name c packer = Ok name ->
            detect_archive_names c packer (Some p) = Ok (p, name, "")))
  /\ env_name c PEX_PACKER = Ok (get_env_name c "VIRTUAL_ENV")
  /\ (forall var value,
        environ c !! var = Some value -> value <> "" ->
        get_env_name c var = basename value)
  /\ (forall var,
        environ c !! var = None \/ environ c !! var = Some "" ->
        get_env_name c var = "default").
Proof.
  repeat split.
  - intros Hrun. destruct (running_from_pex_filepath c Hrun) as [pex_file Hpex].
    exists pex_file. repeat split.
    + assumption.
    + apply detect_archive_names_names in H. rewrite Hrun, Hpex in H.
      now injection H.
    + apply detect_archive_names_names in H. rewrite Hrun, Hpex in H.
      now injection H.
    + intros p Hp Hext. rewrite (detect_archive_names_explicit _ _ _ Hp).
      rewrite Hrun, Hpex, Hext. reflexivity.
  - apply detect_archive_names_names in H0. rewrite H in H0.
    destruct (env_name c packer); [|discriminate]. now injection H0 as _ ->.
  - apply detect_archive_names_names in H0. rewrite H in H0.
    destruct (env_name c packer); [|discriminate]. now injection H0.
  - intros p name Hp Hext Hname. rewrite (detect_archive_names_explicit _ _ _ Hp).
    rewrite H, Hname, Hext. reflexivity.
  - intros var value Hv Hne. unfold get_env_name. rewrite Hv.
    apply eqb_false_iff in Hne. now rewrite Hne.
  - intros var [Hv|Hv]; unfold get_env_name; rewrite Hv; reflexivity.
Qed.

Lemma env_name_derivation_witness :
  detect_archive_names ctx_pex PEX_PACKER (Some "/user/j.doe/blah.pex")
  = Ok ("/user/j.doe/blah.pex", "myapp", "/home/j.doe/myapp.pex")
  /\ detect_archive_names ctx0 PEX_PACKER (Some "/user/j.doe/blah.pex")
     = Ok ("/user/j.doe/blah.pex", "my_venv", "")
  /\ get_env_name ctx0 "VIRTUAL_ENV" = "my_venv"
  /\ get_env_name ctx0 "VARNAME" = "default".
Proof.
  split; [|split; [|split]].
  - destruct (env_name_derivation ctx_pex PEX_PACKER None) as [H _].
    destruct H as (pex_file & Hpex & _ & H); [vm_compute; reflexivity|].
    vm_compute in Hpex. injection Hpex as <-.
    apply H; [discriminate | vm_compute; reflexivity].
  - destruct (env_name_derivation ctx0 PEX_PACKER None) as (_ & H & _).
    destruct H as [_ H]; [vm_compute; reflexivity|].
    apply H; [discriminate | vm_compute; reflexivity | vm_compute; reflexivity].
  - destruct (env_name_derivation ctx0 PEX_PACKER None) as (_ & _ & _ & H & _).
    apply (H "VIRTUAL_ENV" "/path/to/my_venv"); [vm_compute; reflexivity | discriminate].
  - destruct (env_name_derivation ctx0 PEX_PACKER None) as (_ & _ & _ & _ & H).
    apply H. left. vm_compute. reflexivity.
Defined.



(** C5: a file named [requirements.txt] selects the pex packer; any other
    file whose name ends in [.yaml] or [.yml] selects the conda packer;
    every other file name raises [ValueError]. *)
Theorem detect_packer_from_spec_cases (spec_file : string) :
  (basename spec_file = "requirements.txt" ->
   detect_packer_from_spec spec_file = Ok PEX_PACKER)
  /\ (basename spec_file <> "requirements.txt" ->
      endswith ".yaml" (basename spec_file) = true
      \/ endswith ".yml" (basename spec_file) = true ->
      detect_packer_from_spec spec_file = Ok CONDA_PACKER)
  /\ (basename spec_file <> "requirements.txt" ->
      endswith ".yaml" (basename spec_file) = false ->
      endswith ".yml" (basename spec_file) = false ->
      exists msg, detect_packer_from_spec spec_file = Err (ValueError msg)).
Proof.
  unfold detect_packer_from_spec.
  rewrite (endswith_basename ".yaml" spec_file), (endswith_basename ".yml" spec_file)
    by reflexivity.
  repeat split.
  - intros ->. reflexivity.
  - intros Hne Hyaml. apply eqb_false_iff in Hne. rewrite Hne.
    destruct Hyaml as [-> | ->]; [reflexivity|]. now rewrite orb_true_r.
  - intros Hne -> ->. apply eqb_false_iff in Hne. rewrite Hne. simpl. eauto.
Qed.

Lemma detect_packer_from_spec_cases_witness :
  detect_packer_from_spec "/proj/requirements.txt" = Ok PEX_PACKER
  /\ detect_packer_from_spec "conf/env.yml" = Ok CONDA_PACKER
  /\ exists msg, detect_packer_from_spec "conf.yaml/setup.py" = Err (ValueError msg).
Proof.
  split; [|split].
  - apply (detect_packer_from_spec_cases "/proj/requirements.txt").
    vm_compute. reflexivity.
  - apply (detect_packer_from_spec_cases "conf/env.yml").
    + vm_compute. discriminate.
    + right. vm_compute. reflexivity.
  - apply (detect_packer_from_spec_cases "conf.yaml/setup.py").
    + vm_compute. discriminate.
    + vm_compute. reflexivity.
    + vm_compute. reflexivity.
Defined.

(** C8: with no [PEX] variable and no module [_pex],
    [get_current_pex_filepath] raises [RuntimeError] while
    [_running_from_pex] answers [False]; with the [PEX] variable set,
    [get_current_pex_filepath] returns its value. *)
Theorem self_detection_scoping (c : Ctx) :
  (environ c !! "PEX" = None -> pex_module_file c = None ->
   (exists msg, get_current_pex_filepath c = Err (RuntimeError msg))
   /\ _running_from_pex c = false)
  /\ (forall v, environ c !! "PEX" = Some v ->
        get_current_pex_filepath c = Ok v /\ _running_from_pex c = true).
Proof.
  unfold get_current_pex_filepath, _running_from_pex. split.
  - intros -> ->. split; [eauto|].
    case_bool_decide as H; [|reflexivity]. now destruct H.
  - intros v ->. split; [reflexivity|].
    case_bool_decide as H; [reflexivity|]. destruct H. eauto.
Qed.

Lemma self_detection_scoping_witness :
  (exists msg, get_current_pex_filepath ctx0 = Err (RuntimeError msg))
  /\ _running_from_pex ctx0 = false
  /\ get_current_pex_filepath ctx_pex = Ok "/home/j.doe/myapp.pex".
Proof.
  destruct (self_detection_scoping ctx0) as [H0 _].
  destruct (self_detection_scoping ctx_pex) as [_ H1].
  destruct H0 as [Ha Hb]; [vm_compute; reflexivity | reflexivity |].
  split; [exact Ha|]. split; [exact Hb|].
  apply (H1 "/home/j.doe/myapp.pex"). vm_compute. reflexivity.
Defined.

End NameClaims.

Example legacy_pex_filepath :
  get_current_pex_filepath ctx_legacy_pex
  = Ok "/home/j.doe/current_directory/filename.pex"
  /\ _running_from_pex ctx_legacy_pex = true.
Proof. split; vm_compute; reflexivity. Qed.

Example upload_in_a_pex_names :
  detect_archive_names ctx_pex PEX_PACKER (Some "/user/j.doe/blah.pex")
  = Ok ("/user/j.doe/blah.pex", "myapp", "/home/j.doe/myapp.pex").
Proof. vm_compute. reflexivity. Qed.

(** ** The command of [pack_in_pex] *)

Section PexCommand.
Import PyStr posixpath.

Lemma add_requirements_filter (ignored cmd requirements : list string) :
  add_requirements ignored cmd requirements
  = cmd ++ List.filter (fun req => negb (bool_decide (pkg_name req ∈ ignored)))
             requirements.
Proof.
  unfold add_requirements. revert cmd.
  induction requirements as [|req l IH]; intros cmd; simpl.
  - now rewrite app_nil_r.
  - rewrite IH. destruct (bool_decide (pkg_name req ∈ ignored)); simpl.
    + reflexivity.
    + now rewrite <- app_assoc.
Qed.

(** The first component of [split] holds no separator and starts the
    string. *)
Lemma split_hd (c : ascii) (s : string) :
  contains c (hd "" (split c s)) = false
  /\ (s = hd "" (split c s)
      \/ exists rest, s = hd "" (split c s) +:+ String c rest).
Proof.
  induction s as [|a s [IH1 IH2]]; simpl.
  - split; [reflexivity | now left].
  - destruct (Ascii.eqb a c) eqn:E; simpl.
    + apply Ascii.eqb_eq in E. subst a. split; [reflexivity|].
      right. now exists s.
    + pose proof (split_not_nil c s) as Hne.
      destruct (split c s) as [|w ws]; [contradiction|]. simpl in *.
      rewrite E, IH1. split; [reflexivity|].
      destruct IH2 as [->|[rest ->]]; [now left|].
      right. exists rest. now rewrite str_app_cons.
Qed.

Lemma mapM_Ok {A B : Type} (f : A -> result B) (l : list A) :
  Forall (fun a => exists b, f a = Ok b) l -> exists bs, mapM f l = Ok bs.
Proof.
  induction 1 as [|a l [b Hb] _ [bs IH]]; simpl.
  - now exists [].
  - rewrite Hb, bind_Ok, IH. now exists (b :: bs).
Qed.

(** C6: the command is the program and its options, then every
    requirement whose package name -- the text before its first [=] -- is
    not ignored, in the order given and nothing else of the requirements,
    then the index option and the output; [pack_in_pex] copies the
    editable packages and hands exactly that list to the build process:
    an ignored requirement raises nothing, the build runs on the command
    without it and its exit code alone decides the result. *)
Theorem pex_cmd_requirements (c : Ctx) (tempdir : string)
    (requirements : list string) (output : string) (ignored : list string)
    (pex_inherit_path : string) (editable : list (string * string)) :
  pex_cmd c tempdir requirements output ignored pex_inherit_path editable
  = ["pex"; "--inherit-path=" +:+ pex_inherit_path]
    ++ (if bool_decide (editable = []) then []
        else ["--sources-directory=" +:+ tempdir])
    ++ List.filter (fun req => negb (bool_decide (pkg_name req ∈ ignored)))
         requirements
    ++ (if _is_criteo c then ["--index-url=" +:+ CRITEO_PYPI_URL] else [])
    ++ ["-o"; output]
  /\ (forall req,
        contains "=" (pkg_name req) = false
        /\ (req = pkg_name req
            \/ exists rest, req = pkg_name req +:+ String "=" rest))
  /\ pack_in_pex c requirements output ignored pex_inherit_path editable
     = (_ ← mapM (fun kv : string * string =>
                    copytree c kv.2 (join (mkdtemp c) [basename kv.2]))
                 editable;
        call ← run c
          (["pex"; "--inherit-path=" +:+ pex_inherit_path]
           ++ (if bool_decide (editable = []) then []
               else ["--sources-directory=" +:+ mkdtemp c])
           ++ List.filter
                (fun req => negb (bool_decide (pkg_name req ∈ ignored)))
                requirements
           ++ (if _is_criteo c then ["--index-url=" +:+ CRITEO_PYPI_URL] else [])
           ++ ["-o"; output]);
        if call.1 =? 0 then Ok output
        else if isascii call.2 then Err (CalledProcessError call.1 call.2)
        else Err UnicodeDecodeError)
  /\ (forall returncode stderr,
        Forall (fun kv : string * string =>
                  copytree c kv.2 (join (mkdtemp c) [basename kv.2]) = Ok ())
               editable ->
        run c
          (["pex"; "--inherit-path=" +:+ pex_inherit_path]
           ++ (if bool_decide (editable = []) then []
               else ["--sources-directory=" +:+ mkdtemp c])
           ++ List.filter
                (fun req => negb (bool_decide (pkg_name req ∈ ignored)))
                requirements
           ++ (if _is_criteo c then ["--index-url=" +:+ CRITEO_PYPI_URL] else [])
           ++ ["-o"; output])
        = Ok (returncode, stderr) ->
        pack_in_pex c requirements output ignored pex_inherit_path editable
        = if returncode =? 0 then Ok output
          else if isascii stderr then Err (CalledProcessError returncode stderr)
          else Err UnicodeDecodeError).
Proof.
  assert (Hcmd : forall tmp,
    pex_cmd c tmp requirements output ignored pex_inherit_path editable
    = ["pex"; "--inherit-path=" +:+ pex_inherit_path]
      ++ (if bool_decide (editable = []) then []
          else ["--sources-directory=" +:+ tmp])
      ++ List.filter (fun req => negb (bool_decide (pkg_name req ∈ ignored)))
           requirements
      ++ (if _is_criteo c then ["--index-url=" +:+ CRITEO_PYPI_URL] else [])
      ++ ["-o"; output]).
  { intros tmp. unfold pex_cmd. rewrite add_requirements_filter.
    destruct (bool_decide (editable = [])), (_is_criteo c); simpl;
      rewrite <- ?app_assoc; reflexivity. }
  assert (Hpack :
    pack_in_pex c requirements output ignored pex_inherit_path editable
    = (_ ← mapM (fun kv : string * string =>
                   copytree c kv.2 (join (mkdtemp c) [basename kv.2]))
                editable;
       call ← run c
         (pex_cmd c (mkdtemp c) requirements output ignored pex_inherit_path
            editable);
       if call.1 =? 0 then Ok output
       else if isascii call.2 then Err (CalledProcessError call.1 call.2)
       else Err UnicodeDecodeError)).
  { unfold pack_in_pex.
    destruct (mapM _ editable) as [bs|e]; [rewrite !bind_Ok | reflexivity].
    destruct (run c _) as [[rc err]|e]; reflexivity. }
  split; [apply Hcmd|]. split; [intros req; apply split_hd|].
  rewrite Hpack, Hcmd. split; [reflexivity|].
  intros returncode stderr Hcopy Hrun.
  destruct (mapM_Ok (fun kv : string * string =>
              copytree c kv.2 (join (mkdtemp c) [basename kv.2])) editable)
    as [bs ->].
  - eapply Forall_impl; [exact Hcopy|]. simpl. eauto.
  - now rewrite bind_Ok, Hrun, bind_Ok.
Qed.

Lemma pex_cmd_requirements_witness :
  pex_cmd ctx_build "/tmp/tmpdir0" ["a==1.0"; "b==2.0"; "c"] "out.pex" ["a"; "c"]
    "prefer" []
  = ["pex"; "--inherit-path=prefer"; "b==2.0"; "-o"; "out.pex"]
  /\ pack_in_pex ctx_build ["a==1.0"; "b==2.0"; "c"] "out.pex" ["a"; "c"]
       "prefer" []
     = Ok "out.pex".
Proof.
  destruct (pex_cmd_requirements ctx_build "/tmp/tmpdir0"
              ["a==1.0"; "b==2.0"; "c"] "out.pex" ["a"; "c"] "prefer" [])
    as (H1 & _ & _ & H4).
  split.
  - rewrite H1. vm_compute. reflexivity.
  - rewrite (H4 0 ""); [reflexivity | constructor | vm_compute; reflexivity].
Defined.

(** The build process of [ctx_build] refuses every other command: with
    nothing ignored the build fails. *)
Example pack_in_pex_nothing_ignored :
  pack_in_pex ctx_build ["a==1.0"; "b==2.0"; "c"] "out.pex" [] "prefer" []
  = Err (CalledProcessError 2 "usage: pex [options]").
Proof. vm_compute. reflexivity. Qed.

End PexCommand.

(** ** The package inventory *)

Section InventoryClaims.
Import PyStr.

Variable json_loads : string -> option json.

(** The first line of a text: the text before its first line feed. *)
Lemma first_line_app (l rest : string) :
  contains "010" l = false ->
  hd "" (split "010" (l +:+ String "010" rest)) = l.
Proof.
  intros Hl. rewrite split_app_sep, (split_no_sep _ _ Hl). reflexivity.
Qed.

(** C7, as the code has it: [_get_packages] reads the first line of the
    output and nothing of the lines after it.  When that line is JSON it
    returns its value, whatever follows; when it is not, it raises the
    parse error of that line -- which carries that line, not the whole
    output -- and never returns a list instead. *)
Theorem get_packages_first_line (c : Ctx) (editable : bool)
    (executable out : string) :
  pip_list c executable (editable_mode editable) = Ok out ->
  (forall v,
     json_loads (hd "" (split "010" out)) = Some v ->
     _get_packages json_loads c editable executable = Ok v)
  /\ (json_loads (hd "" (split "010" out)) = None ->
      _get_packages json_loads c editable executable
      = Err (JSONDecodeError (hd "" (split "010" out))))
  /\ (forall l rest,
        contains "010" l = false -> out = l +:+ String "010" rest ->
        hd "" (split "010" out) = l)
  /\ (contains "010" out = false -> hd "" (split "010" out) = out).
Proof.
  intros Hout. unfold _get_packages. rewrite Hout, bind_Ok.
  split; [|split; [|split]].
  - intros v ->. reflexivity.
  - intros ->. reflexivity.
  - intros l rest Hl ->. now apply first_line_app.
  - intros Hc. now rewrite (split_no_sep _ _ Hc).
Qed.

End InventoryClaims.

Lemma get_packages_first_line_witness :
  _get_packages JsonRead.json_read
    (with_pip_list ctx0 (Ok (dq "[{'name': 'pip', 'version': '18.1'}]
WARNING: You are using pip version 18.1, however a newer one is available.
"))) false "python"
  = Ok (JArr [JObj [("name", JStr "pip"); ("version", JStr "18.1")]]).
Proof.
  eapply (get_packages_first_line JsonRead.json_read).
  - reflexivity.
  - vm_compute. reflexivity.
Defined.

(** C7, as the spec words it, fails: on an output whose first line is a
    warning and whose second line is the JSON list, the list is not
    parsed, and the error raised carries the warning line only, not the
    raw output. *)
Lemma get_packages_not_first_payload :
  pip_list (with_pip_list ctx0 (Ok "WARNING: pip is old
[]
")) "python" (editable_mode false) = Ok "WARNING: pip is old
[]
"
  /\ JsonRead.json_read "[]" = Some (JArr [])
  /\ _get_packages JsonRead.json_read
       (with_pip_list ctx0 (Ok "WARNING: pip is old
[]
")) false "python"
     = Err (JSONDecodeError "WARNING: pip is old")
  /\ _get_packages JsonRead.json_read
       (with_pip_list ctx0 (Ok "WARNING: pip is old
[]
")) false "python"
     <> Err (JSONDecodeError "WARNING: pip is old
[]
").
Proof.
  split; [reflexivity|]. split; [vm_compute; reflexivity|].
  split; [vm_compute; reflexivity|]. vm_compute. discriminate.
Qed.

(** ** Freshness *)

Section FreshnessClaims.

Variable json_loads : string -> option json.

(** The mapping a document denotes is [R] exactly when the document is an
    object whose dictionary is [R] with every version as a JSON string. *)
Lemma as_requirements_spec (j : json) (R : gmap string string) :
  as_requirements j = Some R
  <-> exists members, j = JObj members /\ obj_map members = JStr <$> R.
Proof.
  split.
  - destruct j as [| | | |l|members]; try discriminate. simpl.
    case_bool_decide as Hall; [|discriminate]. intros [= <-].
    exists members. split; [reflexivity|].
    apply map_eq. intros k. rewrite lookup_fmap, lookup_omap.
    destruct (obj_map members !! k) as [v|] eqn:Hk; [|reflexivity].
    destruct (Hall k v Hk) as [s Hs]. simpl. rewrite Hs. simpl.
    destruct v; try discriminate. now injection Hs as ->.
  - intros (members & -> & Hm). simpl. rewrite Hm.
    rewrite bool_decide_eq_true_2.
    + f_equal. apply map_eq. intros k. rewrite lookup_omap, lookup_fmap.
      now destruct (R !! k).
    + intros k v. rewrite lookup_fmap.
      destruct (R !! k); intros [= <-]. simpl. eauto.
Qed.

(** Equal mappings: the same keys, and the same version for each key. *)
Lemma same_keys_same_versions (m : gmap string json) (R : gmap string string) :
  m = JStr <$> R
  <-> dom m = dom R /\ forall k v, R !! k = Some v -> m !! k = Some (JStr v).
Proof.
  split.
  - intros ->. split; [apply dom_fmap_L|].
    intros k v Hk. now rewrite lookup_fmap, Hk.
  - intros [Hdom Hval]. apply map_eq. intros k. rewrite lookup_fmap.
    destruct (R !! k) as [v|] eqn:Hk; simpl.
    + now apply Hval.
    + apply not_elem_of_dom. rewrite Hdom. now apply not_elem_of_dom.
Qed.

(** C1: the freshness check answers [False] when the archive does not
    exist, and when its metadata file does not exist; otherwise, on
    metadata that parses, it answers [True] exactly when the metadata is
    an object that has the keys of the current requirements and, for each
    key, its version string -- the two mappings are equal. *)
Theorem freshness_check (fs : remote_fs) (package_path : string)
    (current_requirements : gmap string string) :
  (fs !! package_path = None ->
   _is_archive_up_to_date json_loads fs package_path current_requirements
   = Ok false)
  /\ (fs !! _get_archive_metadata_path package_path = None ->
      _is_archive_up_to_date json_loads fs package_path current_requirements
      = Ok false)
  /\ (forall content packages_installed,
        is_Some (fs !! package_path) ->
        fs !! _get_archive_metadata_path package_path = Some content ->
        json_loads content = Some packages_installed ->
        exists b,
          _is_archive_up_to_date json_loads fs package_path current_requirements
          = Ok b
          /\ (b = true
              <-> exists members,
                    packages_installed = JObj members
                    /\ obj_map members = JStr <$> current_requirements)
          /\ (b = true
              <-> exists members,
                    packages_installed = JObj members
                    /\ dom (obj_map members) = dom current_requirements
                    /\ forall k v,
                         current_requirements !! k = Some v ->
                         obj_map members !! k = Some (JStr v))).
Proof.
  unfold _is_archive_up_to_date. split; [|split].
  - intros ->. rewrite bool_decide_eq_false_2; [reflexivity|].
    intros [? ?]. discriminate.
  - intros ->. now destruct (negb _).
  - intros content packages_installed Harchive -> ->.
    rewrite bool_decide_eq_true_2 by assumption. simpl.
    eexists. split; [reflexivity|].
    rewrite bool_decide_eq_true, as_requirements_spec. split; [reflexivity|].
    split.
    + intros (members & -> & Hm). exists members.
      split; [reflexivity|]. now apply same_keys_same_versions.
    + intros (members & -> & Hm). exists members.
      split; [reflexivity|]. now apply same_keys_same_versions.
Qed.

End FreshnessClaims.

Lemma freshness_check_witness :
  _is_archive_up_to_date JsonRead.json_read ∅ "myarchive.pex" ∅ = Ok false
  /\ _is_archive_up_to_date JsonRead.json_read {[ "myarchive.pex" := "PEX" ]}
       "myarchive.pex" ∅ = Ok false
  /\ _is_archive_up_to_date JsonRead.json_read
       (fs_with_metadata (dq "{'a': '2.0', 'b': '1.0'}")) "myarchive.pex"
       {[ "a" := "2.0"; "b" := "1.0" ]} = Ok true.
Proof.
  split; [|split].
  - apply (freshness_check JsonRead.json_read ∅ "myarchive.pex" ∅).
    reflexivity.
  - apply (freshness_check JsonRead.json_read {[ "myarchive.pex" := "PEX" ]}
             "myarchive.pex" ∅).
    vm_compute. reflexivity.
  - destruct (freshness_check JsonRead.json_read
                (fs_with_metadata (dq "{'a': '2.0', 'b': '1.0'}"))
                "myarchive.pex" {[ "a" := "2.0"; "b" := "1.0" ]})
      as (_ & _ & H).
    destruct (H (dq "{'a': '2.0', 'b': '1.0'}")
                (JObj [("a", JStr "2.0"); ("b", JStr "1.0")]))
      as (b & Hb & Hiff & _).
    + vm_compute. eauto.
    + vm_compute. reflexivity.
    + vm_compute. reflexivity.
    + rewrite Hb. f_equal. apply Hiff.
      exists [("a", JStr "2.0"); ("b", JStr "1.0")].
      split; [reflexivity | vm_compute; reflexivity].
Defined.

(** The cases of the repository's test of the version comparison. *)
Example update_version_comparaison :
  let check current metadata :=
    _is_archive_up_to_date JsonRead.json_read (fs_with_metadata (dq metadata))
      "myarchive.pex" current in
  check {[ "a" := "2.0"; "b" := "1.0" ]} "{'a': '2.0', 'b': '1.0'}" = Ok true
  /\ check {[ "a" := "2.0"; "b" := "1.0" ]} "{'a': '1.0', 'b': '1.0'}" = Ok false
  /\ check {[ "a" := "2.0"; "b" := "1.0" ]} "{'a': '2.0'}" = Ok false
  /\ check {[ "a" := "2.0" ]} "{'a': '2.0', 'b': '1.0'}" = Ok false
  /\ check ∅ "{'a': '2.0', 'b': '1.0'}" = Ok false
  /\ check {[ "a" := "2.0" ]} "{'c': '1.0'}" = Ok false
  /\ check ∅ "{}" = Ok true.
Proof. vm_compute. repeat split; reflexivity. Qed.

Example update_no_archive :
  _is_archive_up_to_date JsonRead.json_read ∅ "myarchive.pex" ∅ = Ok false
  /\ _is_archive_up_to_date JsonRead.json_read {[ "myarchive.pex" := "PEX" ]}
       "myarchive.pex" ∅ = Ok false
  /\ _get_archive_metadata_path "myarchive.pex" = "myarchive.json".
Proof. vm_compute. repeat split; reflexivity. Qed.

(** ** Editable requirements inside a pex *)

Section EditableClaims.
Import PyStr posixpath.

Variable _get_editable_requirements : string -> result (list string).







End EditableClaims.


(** C9, where the claim fails: a module kept in one file is resolved, yet
    the mapping has no entry under its name -- the key is the file's base
    name -- and a built-in module is resolved, yet no mapping is returned
    at all. *)
Lemma editable_requirements_not_the_names :
  _running_from_pex ctx_modules = true
  /\ read_file ctx_modules ("/work" +:+ "/" +:+ EDITABLE_PACKAGES_INDEX)
     = Some "mod_b
"
  /\ find_module ctx_modules "mod_b" = Found (Some "/site/mod_b.py")
  /\ (exists m,
        get_editable_requirements (fun _ => Ok []) ctx_modules "python" "/work"
        = Ok m
        /\ m !! "mod_b" = None
        /\ m !! "mod_b.py" = Some "/site/mod_b.py")
  /\ read_file ctx_modules ("/builtin" +:+ "/" +:+ EDITABLE_PACKAGES_INDEX)
     = Some "sys
"
  /\ find_module ctx_modules "sys" = Found None
  /\ get_editable_requirements (fun _ => Ok []) ctx_modules "python" "/builtin"
     = Err TypeError.
Proof.
  split; [reflexivity|]. split; [reflexivity|]. split; [reflexivity|].
  split; [|repeat split; reflexivity].
  exists {[ "mod_b.py" := "/site/mod_b.py" ]}.
  split; [vm_compute; reflexivity|]. split; vm_compute; reflexivity.
Qed.

Example get_editable_requirements_test :
  get_editable_requirements (fun _ => Ok []) ctx_pex "python" "/work"
  = Ok {[ "user-lib" := "/src/tests/user-lib" ]}.
Proof. vm_compute. reflexivity. Qed.

(** A name of a built-in module has no location: taking the base name of
    [None] raises [TypeError]. *)
Example editable_builtin_name :
  add_editable ctx_pex ["user-lib"; "sys"] ∅ = Err TypeError.
Proof. vm_compute. reflexivity. Qed.

Example splitlines_index :
  splitlines "user-lib
not-existing-pgk
" = ["user-lib"; "not-existing-pgk"].
Proof. reflexivity. Qed.

(** ** Examples of [zip_path] *)

Example zip_path_test :
  zip_path ctx0 test_tree "/tmp/pytest-0/test_zip_path0" false "/tmp/out"
  = Ok ("/tmp/out/test_zip_path0.zip",
        [("/tmp/pytest-0/test_zip_path0/boo.bin", "boo.bin");
         ("/tmp/pytest-0/test_zip_path0/foo/bar.txt", "foo/bar.txt");
         ("/tmp/pytest-0/test_zip_path0/py-lib/bar.py", "py-lib/bar.py")]).
Proof. vm_compute. reflexivity. Qed.

Example zip_path_with_base_name :
  zip_path ctx0 test_tree "proj/lib/" true "/tmp/out"
  = Ok ("/tmp/out/.zip",
        [("proj/lib/boo.bin", "boo.bin");
         ("proj/lib/foo/bar.txt", "foo/bar.txt");
         ("proj/lib/py-lib/bar.py", "py-lib/bar.py")])
  /\ zip_path ctx0 test_tree "../lib" true "/tmp/out"
     = Ok ("/tmp/out/lib.zip",
           [("../lib/boo.bin", "lib/boo.bin");
            ("../lib/foo/bar.txt", "lib/foo/bar.txt");
            ("../lib/py-lib/bar.py", "lib/py-lib/bar.py")]).
Proof. vm_compute. split; reflexivity. Qed.

Example tree_files_test :
  tree_files test_tree
  = [([], "boo.bin"); ([], "stale.pyc"); (["foo"], "bar.txt");
     (["py-lib"], "bar.py"); (["py-lib"; "__pycache__"], "bar.cpython-36.pyc")].
Proof. reflexivity. Qed.

(** ** The archive of [zip_path] *)

Section ZipFacts.
Import PyStr posixpath.

Lemma valid_name_spec (x : string) :
  valid_name x = true ->
  x <> "" /\ contains sep x = false /\ x <> "." /\ x <> "..".
Proof.
  unfold valid_name. rewrite !andb_true_iff, !negb_true_iff.
  intros [[[H1 H2] H3] H4]. repeat split; try assumption;
    now apply eqb_false_iff.
Qed.


Lemma endswith_1_app (c : ascii) (p d : string) :
  d <> "" ->
  endswith (String c "") (p +:+ d) = endswith (String c "") d.
Proof.
  intros Hd. induction p as [|a p IH]; app_simpl; [reflexivity|].
  rewrite IH. replace (String.eqb _ _) with false; [reflexivity|].
  symmetry. apply eqb_false_iff. intros [= _ H].
  destruct p; [|discriminate]. now rewrite str_app_nil_l in H.
Qed.

Lemma endswith_sep_free (c : ascii) (x : string) :
  contains c x = false -> endswith (String c "") x = false.
Proof.
  intros Hx. destruct (endswith (String c "") x) eqn:E; [|reflexivity].
  rewrite (endswith_contains c _ _ E) in Hx; [discriminate|].
  simpl. now rewrite Ascii.eqb_refl.
Qed.








(** *** [normpath], [abspath] and [relpath] below a directory *)

Lemma normpath_step_abs (k : nat) (acc : list string) (comp : string) :
  k <> 0%nat -> normpath_step k acc comp = normpath_step 1 acc comp.
Proof.
  intros Hk. unfold normpath_step.
  destruct k; [contradiction | reflexivity].
Qed.

Lemma fold_normpath_step_abs (k : nat) (comps acc : list string) :
  k <> 0%nat ->
  fold_left (normpath_step k) comps acc = fold_left (normpath_step 1) comps acc.
Proof.
  intros Hk. revert acc. induction comps as [|x comps IH]; intros acc; simpl.
  - reflexivity.
  - now rewrite IH, normpath_step_abs.
Qed.





Lemma startswith_true_cons (c : ascii) (s : string) :
  startswith (String c "") s = true -> exists s', s = String c s'.
Proof.
  destruct s as [|a s]; [discriminate|]. unfold startswith. simpl.
  destruct (ascii_dec c a) as [->|]; [eauto | discriminate].
Qed.

(** The normal form of an absolute path: one or two slashes, then the
    kept components joined by slashes. *)
Lemma normpath_abs (s : string) :
  startswith "/" s = true ->
  exists k, normpath s = replicate (S k) sep +:+ PyStr.join "/" (norm_stack s).
Proof.
  intros Habs. destruct (startswith_true_cons _ _ Habs) as [s' ->].
  unfold normpath. replace (String.eqb (String "/" s') "") with false by reflexivity.
  rewrite Habs.
  set (k := if startswith "//" (String "/" s') && negb (startswith "///" (String "/" s'))
            then 2%nat else 1%nat).
  assert (Hk : exists k', k = S k') by (subst k; destruct (_ && _); eauto).
  destruct Hk as [k' Hk]. rewrite Hk. exists k'.
  rewrite fold_normpath_step_abs by discriminate.
  fold (norm_stack (String "/" s')). reflexivity.
Qed.





Lemma anchored_abs (cwd p : string) :
  isabs cwd = true -> startswith "/" (anchored cwd p) = true.
Proof.
  intros Hcwd. unfold anchored, isabs in *.
  destruct (startswith "/" p) eqn:Hp; [assumption|].
  unfold join2. rewrite Hp.
  destruct (startswith_true_cons _ _ Hcwd) as [cwd' ->].
  destruct (_ || _); rewrite startswith_1_app; auto; discriminate.
Qed.

































End ZipFacts.


(** C10, where the claim fails: a file of a sub-directory that [os.walk]
    lists but does not enter has no member in the archive, and a file
    that cannot be written leaves no archive at all. *)
Lemma zip_path_misses_files :
  wf_tree link_tree = true
  /\ (["link"], "x.txt") ∈ all_files link_tree
  /\ PyStr.endswith ".pyc" "x.txt" = false
  /\ zip_path ctx0 link_tree "/data/pkg" true "/tmp/out"
     = Ok ("/tmp/out/pkg.zip", [("/data/pkg/a.txt", "pkg/a.txt")])
  /\ wf_tree dangling_tree = true
  /\ zip_path ctx0 dangling_tree "/data/pkg" true "/tmp/out"
     = Err FileNotFoundError.
Proof.
  split; [reflexivity|]. split; [vm_compute; apply elem_of_cons; right;
                                  apply elem_of_cons; now left|].
  repeat split; reflexivity.
Qed.

(** * Further properties of the module *)

(** ** Archive names *)

Section MoreNames.
Import PyStr posixpath.

Lemma take_drop_str (n : nat) (s : string) : take n s +:+ drop n s = s.
Proof.
  revert s. induction n as [|n IH]; intros s; [reflexivity|].
  destruct s as [|a s]; [reflexivity|]. simpl. now rewrite str_app_cons, IH.
Qed.

Lemma splitext_loop_app (n : nat) (p : string) (i d : Z) :
  fst (splitext_loop n p i d) +:+ snd (splitext_loop n p i d) = p.
Proof.
  revert i. induction n as [|n IH]; intros i; simpl.
  - apply app_empty_r.
  - destruct (negb _); [apply take_drop_str | apply IH].
Qed.

(** The two halves [splitext] returns make up the path. *)
Lemma splitext_app (p : string) : fst (splitext p) +:+ snd (splitext p) = p.
Proof.
  unfold splitext. destruct (_ <? _); [apply splitext_loop_app|].
  apply app_empty_r.
Qed.

Lemma endswith_app_long (suf p t : string) :
  (String.length suf <= String.length t)%nat ->
  endswith suf (p +:+ t) = endswith suf t.
Proof.
  intros Hlen. induction p as [|a p IH]; app_simpl; [reflexivity|].
  rewrite IH. replace (String.eqb _ _) with false; [reflexivity|].
  symmetry. apply eqb_false_iff. intros H.
  apply (f_equal String.length) in H. simpl in H.
  rewrite length_app_str in H. lia.
Qed.

Lemma packer_of_suffix (packer : Packer) (x : string) :
  detect_packer_from_file (x +:+ "." +:+ extension packer) = Ok packer.
Proof.
  unfold detect_packer_from_file. destruct packer; simpl extension.
  - change (x +:+ "." +:+ "tar.gz") with (x +:+ ".tar.gz").
    rewrite (endswith_app_long ".pex" x ".tar.gz") by (simpl; lia).
    rewrite (endswith_app_long ".zip" x ".tar.gz") by (simpl; lia).
    rewrite (endswith_app ".tar.gz" x). reflexivity.
  - change (x +:+ "." +:+ "pex") with (x +:+ ".pex").
    now rewrite (endswith_app ".pex" x).
Qed.

(** X1: the conda packer accepts no path the caller gives: the call never
    returns, and once the names are known it raises [ValueError]. *)
Theorem conda_refuses_every_given_path (c : Ctx) (p : string) :
  p <> "" ->
  (forall r, detect_archive_names c CONDA_PACKER (Some p) <> Ok r)
  /\ (_running_from_pex c = true \/ (exists n, env_name c CONDA_PACKER = Ok n) ->
      exists msg,
        detect_archive_names c CONDA_PACKER (Some p) = Err (ValueError msg)).
Proof.
  intros Hp. rewrite (detect_archive_names_explicit _ _ _ Hp).
  rewrite conda_extension_never_right. split.
  - intros r.
    destruct (if _running_from_pex c then _ else _) as [[pex_file name]|e];
      discriminate.
  - intros Hnames. destruct (_running_from_pex c) eqn:Hrun.
    + destruct (running_from_pex_filepath c Hrun) as [pex_file ->]. simpl. eauto.
    + destruct Hnames as [|[n ->]]; [discriminate|]. simpl. eauto.
Qed.

Lemma conda_refuses_every_given_path_witness :
  "/user/j.doe/envs/myenv.tar.gz" <> ""
  /\ exists msg,
       detect_archive_names ctx0 CONDA_PACKER (Some "/user/j.doe/envs/myenv.tar.gz")
       = Err (ValueError msg).
Proof.
  split; [discriminate|].
  apply (conda_refuses_every_given_path ctx0 "/user/j.doe/envs/myenv.tar.gz");
    [discriminate|].
  right. exists "myenv". vm_compute. reflexivity.
Defined.

(** X2: with a path given, the file system query plays no part -- the
    call answers the same whatever the query would answer -- and a path
    that is accepted is returned as it was given. *)
Theorem given_path_needs_no_query (c : Ctx) (packer : Packer) (p : string)
    (answer : result string) :
  p <> "" ->
  detect_archive_names (with_hdfs_getconf c answer) packer (Some p)
  = detect_archive_names c packer (Some p)
  /\ (forall path name pex,
        detect_archive_names c packer (Some p) = Ok (path, name, pex) ->
        path = p).
Proof.
  intros Hp. rewrite !(detect_archive_names_explicit _ _ _ Hp).
  split; [reflexivity|].
  intros path name pex.
  destruct (if _running_from_pex c then _ else _) as [[pex_file name']|e];
    [|discriminate].
  simpl. destruct (right_extension packer p); [|discriminate].
  now intros [= <- _ _].
Qed.

Lemma given_path_needs_no_query_witness :
  "/user/j.doe/blah.pex" <> ""
  /\ detect_archive_names
       (with_hdfs_getconf ctx0 (Err (CalledProcessError 127 "hdfs: not found")))
       PEX_PACKER (Some "/user/j.doe/blah.pex")
     = Ok ("/user/j.doe/blah.pex", "my_venv", "").
Proof.
  split; [discriminate|].
  destruct (given_path_needs_no_query ctx0 PEX_PACKER "/user/j.doe/blah.pex"
              (Err (CalledProcessError 127 "hdfs: not found")))
    as [H _]; [discriminate|].
  rewrite H. vm_compute. reflexivity.
Defined.

(** The path made when none is given ends in a dot and the packer's
    extension. *)
Lemma default_path_shape (c : Ctx) (packer : Packer)
    (package_path : option string) (path name pex : string) :
  package_path = None \/ package_path = Some "" ->
  detect_archive_names c packer package_path = Ok (path, name, pex) ->
  exists x, path = x +:+ "." +:+ extension packer.
Proof.
  intros Hd. rewrite (detect_archive_names_default _ _ _ Hd).
  destruct (if _running_from_pex c then _ else _) as [[pex_file name']|e];
    [|discriminate].
  simpl. destruct (get_default_fs c) as [fs|]; [|discriminate].
  intros [= <- _ _].
  exists (fs +:+ "/user/" +:+ getuser c +:+ "/envs/" +:+ name').
  now rewrite !app_assoc_str.
Qed.

(** X3: the archive path [detect_archive_names] returns names its packer:
    [detect_packer_from_file] on that path answers the packer the path was
    made for. *)
Theorem archive_path_names_its_packer (c : Ctx) (packer : Packer)
    (package_path : option string) (path name pex : string) :
  detect_archive_names c packer package_path = Ok (path, name, pex) ->
  detect_packer_from_file path = Ok packer.
Proof.
  intros H.
  assert (Hcases : package_path = None \/ package_path = Some ""
                   \/ exists p, package_path = Some p /\ p <> "").
  { destruct package_path as [p|]; [|now left].
    destruct (decide (p = "")) as [->|]; [now right; left | right; right; eauto]. }
  destruct Hcases as [Hd|[Hd|(p & -> & Hp)]].
  - destruct (default_path_shape c packer package_path path name pex
                (or_introl Hd) H) as [x ->].
    apply packer_of_suffix.
  - destruct (default_path_shape c packer package_path path name pex
                (or_intror Hd) H) as [x ->].
    apply packer_of_suffix.
  - rewrite (detect_archive_names_explicit _ _ _ Hp) in H.
    destruct (if _running_from_pex c then _ else _) as [[pex_file name']|e];
      [|discriminate].
    simpl in H. destruct (right_extension packer p) eqn:Hext; [|discriminate].
    injection H as <- _ _. unfold right_extension in Hext.
    apply eqb_true_iff in Hext.
    rewrite <- (splitext_app p), Hext. apply packer_of_suffix.
Qed.

Lemma archive_path_names_its_packer_witness :
  detect_archive_names ctx0 CONDA_PACKER None
  = Ok ("hdfs://root/user/j.doe/envs/myenv.tar.gz", "myenv", "")
  /\ detect_packer_from_file "hdfs://root/user/j.doe/envs/myenv.tar.gz"
     = Ok CONDA_PACKER.
Proof.
  split; [vm_compute; reflexivity|].
  apply (archive_path_names_its_packer ctx0 CONDA_PACKER None _ "myenv" "").
  vm_compute. reflexivity.
Defined.

(** ** Environment names *)

Lemma contains_take (c : ascii) (n : nat) (s : string) :
  contains c s = false -> contains c (take n s) = false.
Proof.
  revert s. induction n as [|n IH]; intros s; [reflexivity|].
  destruct s as [|a s]; [reflexivity|]. simpl.
  intros [Ha Hs]%orb_false_iff. now rewrite Ha, IH.
Qed.

Lemma splitext_loop_fst_sep_free (c : ascii) (n : nat) (p : string) (i d : Z) :
  contains c p = false -> contains c (fst (splitext_loop n p i d)) = false.
Proof.
  intros Hp. revert i. induction n as [|n IH]; intros i; simpl; [assumption|].
  destruct (negb _); [now apply contains_take | apply IH].
Qed.

Lemma splitext_fst_sep_free (c : ascii) (p : string) :
  contains c p = false -> contains c (fst (splitext p)) = false.
Proof.
  intros Hp. unfold splitext.
  destruct (_ <? _); [now apply splitext_loop_fst_sep_free | assumption].
Qed.

Lemma get_env_name_sep_free (c : Ctx) (var : string) :
  contains sep (get_env_name c var) = false.
Proof.
  unfold get_env_name. destruct (environ c !! var) as [v|]; [|reflexivity].
  destruct (String.eqb v ""); [reflexivity | apply basename_sep_free].
Qed.

Lemma last_Forall {A : Type} (P : A -> Prop) (l : list A) (d : A) :
  Forall P l -> P d -> P (List.last l d).
Proof.
  intros Hl Hd. induction Hl as [|x l Hx Hl IH]; [assumption|].
  destruct l; [assumption | exact IH].
Qed.

Lemma path_parts_sep_free (s : string) :
  Forall (fun w => contains sep w = false) (path_parts s).
Proof.
  unfold path_parts. apply Forall_forall. intros w Hw.
  apply list_elem_of_In, filter_In in Hw as [Hw _].
  pose proof (split_sep_free sep s) as Hall. rewrite Forall_forall in Hall.
  now apply Hall, list_elem_of_In.
Qed.

Lemma second_parent_name_sep_free (s n : string) :
  second_parent_name s = Ok n -> contains sep n = false.
Proof.
  unfold second_parent_name. destruct (_ <? _)%nat; [discriminate|].
  intros [= <-].
  apply (last_Forall (fun w => contains sep w = false)); [|reflexivity].
  apply Forall_take, path_parts_sep_free.
Qed.

(** X4: the environment name [detect_archive_names] returns holds no
    slash, for either packer, inside a pex or not: the archive made from it
    lies in the [envs] directory itself. *)
Theorem env_name_has_no_slash (c : Ctx) (packer : Packer)
    (package_path : option string) (path name pex : string) :
  detect_archive_names c packer package_path = Ok (path, name, pex) ->
  contains "/" name = false.
Proof.
  intros H. apply detect_archive_names_names in H.
  destruct (_running_from_pex c).
  - destruct (get_current_pex_filepath c) as [pex_file|]; [|discriminate].
    injection H as _ <-. apply splitext_fst_sep_free, basename_sep_free.
  - destruct (env_name c packer) as [n|] eqn:Hn; [|discriminate].
    injection H as _ ->. destruct packer; simpl in Hn.
    + now apply second_parent_name_sep_free in Hn.
    + injection Hn as <-. apply get_env_name_sep_free.
Qed.

Lemma env_name_has_no_slash_witness :
  detect_archive_names ctx_pex PEX_PACKER None
  = Ok ("hdfs://root/user/j.doe/envs/myapp.pex", "myapp", "/home/j.doe/myapp.pex")
  /\ contains "/" "myapp" = false.
Proof.
  split; [vm_compute; reflexivity|].
  apply (env_name_has_no_slash ctx_pex PEX_PACKER None
           "hdfs://root/user/j.doe/envs/myapp.pex" "myapp" "/home/j.doe/myapp.pex").
  vm_compute. reflexivity.
Defined.

(** X5: a value of the variable that ends in a slash names no
    environment: [get_env_name] then returns the empty string, not
    ['default'], and it returns the empty string in no other case. *)
Theorem get_env_name_empty_iff (c : Ctx) (var value : string) :
  environ c !! var = Some value -> value <> "" ->
  (get_env_name c var = "" <-> endswith "/" value = true).
Proof.
  intros Hv Hne. unfold get_env_name. rewrite Hv.
  apply eqb_false_iff in Hne. rewrite Hne. apply eqb_false_iff in Hne.
  destruct (basename_cases value) as [[Hc ->]|(p & f & -> & Hf & ->)].
  - unfold sep in Hc. rewrite (endswith_sep_free _ _ Hc). split; [|discriminate].
    intros ->. contradiction.
  - split.
    + intros ->. apply endswith_app.
    + intros He. destruct f as [|a f]; [reflexivity|].
      change (p +:+ String sep (String a f))
        with (p +:+ "/" +:+ String a f) in He.
      rewrite <- app_assoc_str, endswith_1_app in He by discriminate.
      unfold sep in Hf. rewrite (endswith_sep_free _ _ Hf) in He. discriminate.
Qed.

Lemma get_env_name_empty_iff_witness :
  environ ctx_slash_env !! "VIRTUAL_ENV" = Some "/path/to/my_venv/"
  /\ "/path/to/my_venv/" <> ""
  /\ endswith "/" "/path/to/my_venv/" = true
  /\ get_env_name ctx_slash_env "VIRTUAL_ENV" = "".
Proof.
  split; [vm_compute; reflexivity|]. split; [discriminate|].
  split; [reflexivity|].
  destruct (get_env_name_empty_iff ctx_slash_env "VIRTUAL_ENV"
              "/path/to/my_venv/") as [_ H];
    [vm_compute; reflexivity | discriminate |].
  apply H. reflexivity.
Defined.

Lemma path_parts_app_sep (s t : string) :
  path_parts (s +:+ String sep t) = path_parts s ++ path_parts t.
Proof. unfold path_parts. now rewrite split_app_sep, List.filter_app. Qed.

Lemma path_parts_name (x : string) : valid_name x = true -> path_parts x = [x].
Proof.
  intros (H1 & H2 & H3 & _)%valid_name_spec. unfold path_parts.
  rewrite (split_no_sep _ _ H2). simpl.
  apply eqb_false_iff in H1, H3. now rewrite H1, H3.
Qed.

(** X6: for an interpreter at [<prefix>/<env>/<dir>/<file>] the conda
    packer's environment name is [<env>], whatever the prefix; for an
    interpreter given by a bare file name it raises [IndexError]. *)
Theorem conda_env_name_of_layout (c : Ctx) (prefix env dir file : string) :
  valid_name env = true -> valid_name dir = true -> valid_name file = true ->
  (sys_executable c = prefix +:+ "/" +:+ env +:+ "/" +:+ dir +:+ "/" +:+ file ->
   env_name c CONDA_PACKER = Ok env)
  /\ (sys_executable c = file -> env_name c CONDA_PACKER = Err IndexError).
Proof.
  intros He Hd Hf. simpl env_name. unfold second_parent_name. split; intros ->.
  - change (prefix +:+ "/" +:+ env +:+ "/" +:+ dir +:+ "/" +:+ file)
      with (prefix +:+ String sep (env +:+ String sep (dir +:+ String sep file))).
    rewrite !path_parts_app_sep.
    rewrite (path_parts_name env He), (path_parts_name dir Hd),
      (path_parts_name file Hf).
    rewrite !length_app. simpl length.
    destruct (Nat.ltb_spec (length (path_parts prefix) + (1 + (1 + 1))) 2);
      [lia|].
    replace (length (path_parts prefix) + (1 + (1 + 1)) - 2)%nat
      with (length (path_parts prefix ++ [env]))
      by (rewrite length_app; simpl; lia).
    replace (path_parts prefix ++ [env] ++ [dir] ++ [file])
      with ((path_parts prefix ++ [env]) ++ [dir; file])
      by now rewrite <- app_assoc.
    rewrite take_app_length. now rewrite last_last.
  - now rewrite path_parts_name.
Qed.

Lemma conda_env_name_of_layout_witness :
  valid_name "myenv" = true /\ valid_name "bin" = true
  /\ valid_name "python" = true
  /\ env_name ctx0 CONDA_PACKER = Ok "myenv".
Proof.
  split; [reflexivity|]. split; [reflexivity|]. split; [reflexivity|].
  apply (conda_env_name_of_layout ctx0 "/opt/conda/envs" "myenv" "bin" "python");
    reflexivity.
Defined.

(** ** Running from a pex *)

(** X7: the two self-detection functions agree: [_running_from_pex]
    answers [True] exactly when [get_current_pex_filepath] returns a path;
    and a path found through the module [_pex] is absolute, while the
    value of [PEX] is returned as it is. *)
Theorem running_from_pex_iff_filepath (c : Ctx) :
  (_running_from_pex c = true
   <-> exists pex_file, get_current_pex_filepath c = Ok pex_file)
  /\ (environ c !! "PEX" = None -> isabs (getcwd c) = true ->
      forall pex_file,
        get_current_pex_filepath c = Ok pex_file -> isabs pex_file = true).
Proof.
  split.
  - split; [apply running_from_pex_filepath|].
    intros [pex_file H]. unfold get_current_pex_filepath, _running_from_pex in *.
    case_bool_decide as Hpex; [reflexivity|].
    destruct (environ c !! "PEX"); [destruct Hpex; eauto|].
    destruct (pex_module_file c); [reflexivity | discriminate].
  - intros Hpex Hcwd pex_file. unfold get_current_pex_filepath. rewrite Hpex.
    destruct (pex_module_file c) as [file|]; [|discriminate].
    intros [= <-]. unfold abspath.
    set (d := dirname (dirname (dirname file))).
    fold (anchored (getcwd c) d).
    destruct (normpath_abs _ (anchored_abs (getcwd c) d Hcwd)) as [k ->].
    simpl replicate. rewrite str_app_cons. unfold isabs, startswith, sep. simpl.
    now destruct (_ +:+ _).
Qed.

Lemma running_from_pex_iff_filepath_witness :
  _running_from_pex ctx_legacy_pex = true
  /\ isabs "/home/j.doe/current_directory/filename.pex" = true.
Proof.
  destruct (running_from_pex_iff_filepath ctx_legacy_pex) as [H1 H2].
  split.
  - apply H1. eexists. vm_compute. reflexivity.
  - apply H2; [reflexivity | reflexivity | vm_compute; reflexivity].
Defined.

End MoreNames.

(** ** Requirements and the build *)

Section MoreBuild.
Import PyStr posixpath.

Lemma pkg_name_plain (n : string) : contains "=" n = false -> pkg_name n = n.
Proof. intros Hn. unfold pkg_name. now rewrite (split_no_sep _ _ Hn). Qed.

Lemma pkg_name_pinned (n v : string) :
  contains "=" n = false -> pkg_name (n +:+ "==" +:+ v) = n.
Proof.
  intros Hn. unfold pkg_name.
  change (n +:+ "==" +:+ v) with (n +:+ String "=" (String "=" v)).
  now rewrite split_app_sep, (split_no_sep _ _ Hn).
Qed.

Lemma pkg_name_format (kv : string * string) :
  contains "=" kv.1 = false ->
  pkg_name (if negb (String.eqb kv.2 "") then kv.1 +:+ "==" +:+ kv.2 else kv.1)
  = kv.1.
Proof.
  intros Hn. destruct (negb _); [now apply pkg_name_pinned | now apply pkg_name_plain].
Qed.

(** X8: [format_requirements] and the loop of [pack_in_pex] agree on
    package names: when no name holds [=], the name read back from a
    formatted requirement is the name it was made from, so ignoring
    packages after formatting is ignoring them before. *)
Theorem format_requirements_names (items : list (string * string))
    (ignored cmd : list string) :
  Forall (fun kv : string * string => contains "=" kv.1 = false) items ->
  map pkg_name (format_requirements (Some items)) = map fst items
  /\ add_requirements ignored cmd (format_requirements (Some items))
     = cmd ++ format_requirements
                (Some (List.filter
                         (fun kv : string * string =>
                            negb (bool_decide (kv.1 ∈ ignored)))
                         items)).
Proof.
  intros Hall. rewrite add_requirements_filter. simpl format_requirements.
  split.
  - rewrite map_map. apply Forall_fmap_ext_1.
    eapply Forall_impl; [exact Hall|]. intros kv Hkv. now apply pkg_name_format.
  - f_equal. induction Hall as [|kv items Hkv _ IH]; [reflexivity|].
    simpl. rewrite (pkg_name_format kv Hkv), IH.
    now destruct (bool_decide (kv.1 ∈ ignored)).
Qed.

Lemma format_requirements_names_witness :
  Forall (fun kv : string * string => contains "=" kv.1 = false)
    [("a", "1.0"); ("b", "2.0"); ("c", "")]
  /\ add_requirements ["a"] ["pex"]
       (format_requirements (Some [("a", "1.0"); ("b", "2.0"); ("c", "")]))
     = ["pex"; "b==2.0"; "c"].
Proof.
  split; [repeat constructor|].
  destruct (format_requirements_names [("a", "1.0"); ("b", "2.0"); ("c", "")]
              ["a"] ["pex"]) as [_ H]; [repeat constructor|].
  rewrite H. vm_compute. reflexivity.
Defined.




Lemma spec_lines_elem (content line : string) :
  line ∈ spec_lines content
  <-> line ∈ splitlines content /\ line <> "" /\ startswith "#" line = false.
Proof.
  unfold spec_lines. rewrite !list_elem_of_In, filter_In.
  rewrite andb_true_iff, !negb_true_iff, eqb_false_iff. tauto.
Qed.

Lemma add_requirements_none_ignored (cmd requirements : list string) :
  add_requirements [] cmd requirements = cmd ++ requirements.
Proof.
  unfold add_requirements. revert cmd.
  induction requirements as [|req l IH]; intros cmd; simpl.
  - now rewrite app_nil_r.
  - rewrite IH. now rewrite <- app_assoc.
Qed.

(** X10: [pack_spec_in_pex] builds from the lines of the file that are not
    empty and do not start with [#] -- every such line, in the order of the
    file, none ignored, and no sources directory -- and returns [output]
    when the build exits with code 0; another exit code raises
    [CalledProcessError] when the standard error is ASCII and
    [UnicodeDecodeError] when it is not.  A file that does not exist
    raises [FileNotFoundError] before anything is built. *)
Theorem pack_spec_in_pex_lines (c : Ctx) (spec_file output pex_inherit_path : string) :
  (read_file c spec_file = None ->
   forall r,
     pack_spec_in_pex (with_run c r) spec_file output pex_inherit_path
     = Err FileNotFoundError)
  /\ (forall content,
        read_file c spec_file = Some content ->
        pack_spec_in_pex c spec_file output pex_inherit_path
        = (run c (["pex"; "--inherit-path=" +:+ pex_inherit_path]
                  ++ spec_lines content
                  ++ (if _is_criteo c then ["--index-url=" +:+ CRITEO_PYPI_URL]
                      else [])
                  ++ ["-o"; output])
           ≫= fun '(returncode, stderr) =>
                 if returncode =? 0 then Ok output
                 else if isascii stderr
                      then Err (CalledProcessError returncode stderr)
                      else Err UnicodeDecodeError)
        /\ forall line,
             line ∈ spec_lines content
             <-> line ∈ splitlines content /\ line <> ""
                 /\ startswith "#" line = false).
Proof.
  split.
  - intros Hread r. unfold pack_spec_in_pex. simpl read_file. now rewrite Hread.
  - intros content Hread. split; [|apply spec_lines_elem].
    unfold pack_spec_in_pex. rewrite Hread. unfold pack_in_pex.
    simpl mapM. rewrite bind_Ok. unfold pex_cmd.
    rewrite add_requirements_none_ignored. simpl negb.
    destruct (_is_criteo c); rewrite <- ?app_assoc; reflexivity.
Qed.

Lemma pack_spec_in_pex_lines_witness :
  spec_lines "# pinned
cloudpickle==1.2.1

numpy
" = ["cloudpickle==1.2.1"; "numpy"]
  /\ pack_spec_in_pex ctx_spec "requirements.txt" "out.pex" "prefer" = Ok "out.pex"
  /\ pack_spec_in_pex (with_run ctx_spec (fun _ => Ok (1, non_ascii_stderr)))
       "requirements.txt" "out.pex" "prefer"
     = Err UnicodeDecodeError
  /\ pack_spec_in_pex ctx_spec "missing.txt" "out.pex" "prefer"
     = Err FileNotFoundError.
Proof.
  destruct (pack_spec_in_pex_lines ctx_spec "requirements.txt" "out.pex" "prefer")
    as [_ H1].
  destruct (pack_spec_in_pex_lines
              (with_run ctx_spec (fun _ => Ok (1, non_ascii_stderr)))
              "requirements.txt" "out.pex" "prefer")
    as [_ H3].
  destruct (pack_spec_in_pex_lines ctx_spec "missing.txt" "out.pex" "prefer")
    as [H2 _].
  split; [reflexivity|]. split; [|split].
  - destruct (H1 _ eq_refl) as [-> _]. reflexivity.
  - destruct (H3 _ eq_refl) as [-> _]. reflexivity.
  - apply (H2 eq_refl (run ctx_spec)).
Defined.

End MoreBuild.

(** ** Editable requirements outside a pex *)

Section MoreEditable.
Import PyStr posixpath.

Variable _get_editable_requirements : string -> result (list string).

Lemma fold_basename_keeps (dirs : list string) (m0 : gmap string string)
    (k : string) :
  is_Some (m0 !! k) ->
  is_Some (fold_left (fun m d => <[basename d := d]> m) dirs m0 !! k).
Proof.
  revert m0. induction dirs as [|d dirs IH]; intros m0 Hk; simpl; [assumption|].
  apply IH. destruct (decide (basename d = k)) as [<-|Hne].
  - rewrite lookup_insert_eq. eauto.
  - now rewrite lookup_insert_ne.
Qed.

Lemma fold_basename_complete (dirs : list string) (m0 : gmap string string)
    (d : string) :
  d ∈ dirs ->
  is_Some (fold_left (fun m d => <[basename d := d]> m) dirs m0 !! basename d).
Proof.
  revert m0. induction dirs as [|d' dirs IH]; intros m0 Hin; [inversion Hin|].
  simpl. apply elem_of_cons in Hin as [->|Hin]; [|now apply IH].
  apply fold_basename_keeps. rewrite lookup_insert_eq. eauto.
Qed.

Lemma fold_basename_sound (dirs : list string) (m0 : gmap string string)
    (k d : string) :
  fold_left (fun m d => <[basename d := d]> m) dirs m0 !! k = Some d ->
  m0 !! k = Some d \/ (d ∈ dirs /\ basename d = k).
Proof.
  revert m0. induction dirs as [|d' dirs IH]; intros m0; simpl; [now left|].
  intros H. destruct (IH _ H) as [H0|[Hin Hb]].
  - destruct (decide (basename d' = k)) as [Heq|Hne].
    + subst k. rewrite lookup_insert_eq in H0. injection H0 as ->.
      right. split; [apply elem_of_cons; now left | reflexivity].
    + rewrite lookup_insert_ne in H0 by assumption. now left.
  - right. split; [apply elem_of_cons; now right | assumption].
Qed.

(** X11: where the editable requirements come from.  Inside a pex the
    package manager is not asked: the answer is the same whatever
    [_get_editable_requirements] would return.  Outside a pex the index
    file is not read; an error of [_get_editable_requirements] is raised
    as it is, and otherwise the mapping has, under the base name of each
    directory returned, one of the directories with that base name, and
    nothing else. *)
Theorem editable_requirements_sources (c : Ctx)
    (executable editable_packages_dir : string) :
  (_running_from_pex c = true ->
   forall other : string -> result (list string),
     get_editable_requirements other c executable editable_packages_dir
     = get_editable_requirements _get_editable_requirements c executable
         editable_packages_dir)
  /\ (_running_from_pex c = false ->
      (forall files,
         get_editable_requirements _get_editable_requirements
           (with_read_file c files) executable editable_packages_dir
         = get_editable_requirements _get_editable_requirements c executable
             editable_packages_dir)
      /\ (forall e,
            _get_editable_requirements executable = Err e ->
            get_editable_requirements _get_editable_requirements c executable
              editable_packages_dir = Err e)
      /\ (forall dirs,
            _get_editable_requirements executable = Ok dirs ->
            exists m,
              get_editable_requirements _get_editable_requirements c executable
                editable_packages_dir = Ok m
              /\ (forall d, d ∈ dirs -> is_Some (m !! basename d))
              /\ (forall k d, m !! k = Some d -> d ∈ dirs /\ basename d = k))).
Proof.
  unfold get_editable_requirements. split.
  - intros -> other. reflexivity.
  - intros Hrun.
    split; [|split].
    + intros files.
      change (_running_from_pex (with_read_file c files))
        with (_running_from_pex c).
      rewrite Hrun. reflexivity.
    + intros e He. now rewrite Hrun, He.
    + intros dirs Hdirs. rewrite Hrun, Hdirs, bind_Ok.
      eexists. split; [reflexivity|]. split.
      * intros d Hd. now apply fold_basename_complete.
      * intros k d Hk. destruct (fold_basename_sound _ _ _ _ Hk) as [H|H];
          [|assumption].
        rewrite lookup_empty in H. discriminate.
Qed.

End MoreEditable.

Lemma editable_requirements_sources_witness :
  _running_from_pex ctx0 = false
  /\ get_editable_requirements
       (fun _ => Ok ["/src/tests/user-lib/user_lib"; "/old/user_lib"; "/src/other"])
       ctx0 "python" "/work"
     = Ok {[ "user_lib" := "/old/user_lib"; "other" := "/src/other" ]}
  /\ exists m,
       get_editable_requirements
         (fun _ => Ok ["/src/tests/user-lib/user_lib"; "/old/user_lib"; "/src/other"])
         ctx0 "python" "/work" = Ok m
       /\ is_Some (m !! "user_lib").
Proof.
  split; [reflexivity|]. split; [vm_compute; reflexivity|].
  destruct (editable_requirements_sources
              (fun _ => Ok ["/src/tests/user-lib/user_lib"; "/old/user_lib";
                            "/src/other"]) ctx0 "python" "/work") as [_ H].
  destruct (H eq_refl) as (_ & _ & H3).
  destruct (H3 _ eq_refl) as (m & Hm & Hin & _).
  exists m. split; [exact Hm|].
  apply (Hin "/old/user_lib"). apply elem_of_cons. right.
  apply elem_of_cons. now left.
Defined.

(** ** More on [zip_path] *)

Section MoreZip.
Import PyStr posixpath.

Lemma basename_empty_iff (p : string) :
  p <> "" -> (basename p = "" <-> endswith "/" p = true).
Proof.
  intros Hne.
  destruct (basename_cases p) as [[Hc ->]|(q & f & -> & Hf & ->)].
  - unfold sep in Hc. rewrite (endswith_sep_free _ _ Hc). split; [|discriminate].
    intros ->. contradiction.
  - split.
    + intros ->. apply endswith_app.
    + intros He. destruct f as [|a f]; [reflexivity|].
      change (q +:+ String sep (String a f))
        with (q +:+ "/" +:+ String a f) in He.
      rewrite <- app_assoc_str, endswith_1_app in He by discriminate.
      unfold sep in Hf. rewrite (endswith_sep_free _ _ Hf) in He. discriminate.
Qed.

Lemma mapM_ext {A B : Type} (f g : A -> result B) (l : list A) :
  (forall a, f a = g a) -> mapM f l = mapM g l.
Proof.
  intros Hfg. induction l as [|a l IH]; simpl; [reflexivity|].
  now rewrite Hfg, IH.
Qed.

Lemma arcname_no_base_name (cwd p : string) (b : bool) (root file : string) :
  basename p = "" ->
  arcname cwd p b root file = arcname cwd p false root file.
Proof.
  intros Hb. unfold arcname. destruct (String.eqb root p) eqn:E; simpl.
  - apply eqb_true_iff in E. subst root. rewrite Hb. now destruct b.
  - rewrite Hb. now destruct b.
Qed.

(** X12: a directory given with a slash at its end has an empty base
    name: the archive is then named [.zip], and the members carry no
    base name whether [include_base_name] is set or not. *)
Theorem zip_path_trailing_slash (c : Ctx) (t : tree) (py_dir tmp_dir : string) :
  endswith "/" py_dir = true ->
  zip_path c t py_dir true tmp_dir = zip_path c t py_dir false tmp_dir
  /\ (forall archive members,
        zip_path c t py_dir true tmp_dir = Ok (archive, members) ->
        archive = join tmp_dir [".zip"]).
Proof.
  intros Hslash.
  assert (Hne : py_dir <> "") by (intros ->; discriminate).
  assert (Hb : basename py_dir = "") by now apply basename_empty_iff.
  assert (Hm :
    mapM (fun w : string * list string * list (string * option exn) =>
            zip_files (getcwd c) py_dir true w.1.1 w.2) (walk py_dir t)
    = mapM (fun w : string * list string * list (string * option exn) =>
              zip_files (getcwd c) py_dir false w.1.1 w.2) (walk py_dir t)).
  { apply mapM_ext. intros w. unfold zip_files.
    apply mapM_ext. intros file.
    now rewrite (arcname_no_base_name _ _ true _ _ Hb). }
  unfold zip_path. rewrite Hb, Hm. clear Hm. split; [reflexivity|].
  intros archive members.
  destruct (zip_open c _) as [[]|e]; [rewrite bind_Ok | discriminate].
  destruct (mapM _ _);
    (destruct (zip_close c _) as [[]|e'];
     [rewrite bind_Ok | rewrite bind_Err; discriminate]);
    [|discriminate].
  now intros [= <- _].
Qed.

Lemma zip_path_trailing_slash_witness :
  endswith "/" "proj/lib/" = true
  /\ zip_path ctx0 test_tree "proj/lib/" true "/tmp/out"
     = Ok ("/tmp/out/.zip",
           [("proj/lib/boo.bin", "boo.bin");
            ("proj/lib/foo/bar.txt", "foo/bar.txt");
            ("proj/lib/py-lib/bar.py", "py-lib/bar.py")]).
Proof.
  split; [reflexivity|].
  destruct (zip_path_trailing_slash ctx0 test_tree "proj/lib/" "/tmp/out" eq_refl)
    as [-> _].
  vm_compute. reflexivity.
Defined.







End MoreZip.

